(** * zero_migrations: snapshot store and restore, verified against the source

    A shallow embedding of [zero_migrations/backup.py] and
    [zero_migrations/utils/restore.py].

    Modelling scope.
    - Python [str] values are Rocq strings; file and directory entry names are
      ASCII, so that slicing by characters and the code-point order used by
      [sorted] coincide with slicing by bytes and [String.compare].
    - The backup directory [backup_dir_path] is one optional finite map from
      entry names to entries: [None] when the directory does not exist.
    - The JSON text layer of [json.dump]/[json.load] is abstracted to the JSON
      document tree it prints and parses; floats are outside the embedding.
    - The [datetime] library is an interface ([DatetimeLib]); a concrete
      instance for naive datetimes is given for evaluation. *)

From Stdlib Require Import ZArith Ascii.
From stdpp Require Import gmap strings list fin_maps sorting.

Local Open Scope Z_scope.
Set Warnings "-register-all,-clear-no-such-hyp".

(** ** Exceptions and results *)

Inductive pyerr : Type :=
  | FileNotFoundError
  | IsADirectoryError
  | JSONDecodeError
  | ValueError
  | TypeError
  | DatabaseError.

Inductive result (A : Type) : Type :=
  | Return (a : A)
  | Raise (e : pyerr).
Arguments Return {A} a.
Arguments Raise {A} e.

Global Instance result_ret : MRet result := @Return.
Global Instance result_bind : MBind result := fun A B f m =>
  match m with
  | Return a => f a
  | Raise e => Raise e
  end.

(** ** Python string primitives *)

Module Py.

(** [s[:n]] *)
Fixpoint slice_to (n : nat) (s : string) : string :=
  match n, s with
  | S n', String c s' => String c (slice_to n' s')
  | _, _ => ""
  end.

(** [s[n:]] *)
Fixpoint slice_from (n : nat) (s : string) : string :=
  match n, s with
  | S n', String _ s' => slice_from n' s'
  | _, _ => s
  end.

(** [s.endswith(suffix)] *)
Definition endswith (s suffix : string) : bool :=
  let ls := String.length s in
  let lf := String.length suffix in
  if (lf <=? ls)%nat then String.eqb (slice_from (ls - lf) s) suffix else false.

(** The value of a decimal digit character. *)
Definition digit_val (c : ascii) : option Z := Z.of_nat <$> Ascii.is_nat c.

Definition digit_char (d : Z) : ascii :=
  match d with
  | 0 => "0" | 1 => "1" | 2 => "2" | 3 => "3" | 4 => "4"
  | 5 => "5" | 6 => "6" | 7 => "7" | 8 => "8" | _ => "9"
  end%char.

(** Whitespace skipped by [int()] around an ASCII literal. *)
Definition is_space (c : ascii) : bool := Ascii.is_space c.

Fixpoint lstrip (s : string) : string :=
  match s with
  | String c s' => if is_space c then lstrip s' else s
  | "" => ""
  end.

Definition strip (s : string) : string :=
  String.rev (lstrip (String.rev (lstrip s))).

(** Decimal digits with single underscores allowed between digits;
    [prev] tells whether the previous character was a digit. *)
Fixpoint int_digits (acc : Z) (prev : bool) (s : string) : option Z :=
  match s with
  | "" => if prev then Some acc else None
  | String c s' =>
      match digit_val c with
      | Some d => int_digits (10 * acc + d) true s'
      | None =>
          if Ascii.eqb c "_" then
            if prev then int_digits acc false s' else None
          else None
      end
  end.

(** [int(s)] in base 10; [None] stands for [ValueError]. *)
Definition int (s : string) : option Z :=
  match strip s with
  | String "+" s' => int_digits 0 false s'
  | String "-" s' => Z.opp <$> int_digits 0 false s'
  | s' => int_digits 0 false s'
  end.

(** The decimal digits of [n >= 0], least significant first into [acc],
    printing at least [w] of them. *)
Fixpoint digits_acc (fuel : nat) (w : nat) (n : Z) (acc : string) : string :=
  match fuel with
  | O => acc
  | S fuel' =>
      let acc' := String (digit_char (n mod 10)) acc in
      if (n / 10 =? 0) && (w <=? 1)%nat then acc'
      else digits_acc fuel' (w - 1) (n / 10) acc'
  end.

Definition digits (w : nat) (n : Z) : string :=
  digits_acc (w + S (Z.to_nat (Z.log2 n))) w n "".

(** ["%0<w>d" % (n,)]: the sign counts towards the width. *)
Definition format_0d (w : nat) (n : Z) : string :=
  if n <? 0 then String "-" (digits (w - 1) (- n)) else digits w n.

End Py.

(** ** The datetime library, as the code uses it *)

(** [isoformat] of a [datetime] and of a [date], and
    [datetime.fromisoformat], where [None] stands for [ValueError]. *)
Class DatetimeLib (datetime date : Type) : Type := {
  isoformat : datetime → string;
  date_isoformat : date → string;
  fromisoformat : string → option datetime;
}.

(** ** Values *)

Section Values.
Context {datetime date : Type} `{!DatetimeLib datetime date}.

(** Python values a record can hold. [PyOther] stands for any object that
    is neither JSON-native nor a [datetime]/[date] (a [Decimal], a [UUID],
    a [set], ...), identified by a tag. *)
Inductive pyval : Type :=
  | PyNone
  | PyBool (b : bool)
  | PyInt (n : Z)
  | PyStr (s : string)
  | PyList (l : list pyval)
  | PyDict (items : list (string * pyval))
  | PyDatetime (d : datetime)
  | PyDate (d : date)
  | PyOther (tag : nat).

(** JSON documents, as stored in a snapshot file. *)
Inductive json : Type :=
  | JNull
  | JBool (b : bool)
  | JNum (n : Z)
  | JStr (s : string)
  | JArr (l : list json)
  | JObj (members : list (string * json)).

(** [obj[key] = value] on an insertion-ordered [dict]. *)
Fixpoint dict_set (key : string) (value : pyval)
    (obj : list (string * pyval)) : list (string * pyval) :=
  match obj with
  | [] => [(key, value)]
  | (k, v) :: obj' =>
      if String.eqb k key then (k, value) :: obj'
      else (k, v) :: dict_set key value obj'
  end.

(** [dict(pairs)]: later duplicates overwrite, first position is kept. *)
Definition dict_of_pairs (pairs : list (string * pyval)) : list (string * pyval) :=
  fold_left (fun obj kv => dict_set kv.1 kv.2 obj) pairs [].

(** *** [BackupFile.write.datetime_json_serialize]

    Returns the ISO string for a [datetime] or [date]; falls off the end,
    returning Python's [None], for anything else. *)
Definition datetime_json_serialize (obj : pyval) : option string :=
  match obj with
  | PyDatetime d => Some (isoformat d)
  | PyDate d => Some (date_isoformat d)
  | _ => None
  end.

(** [json.dump(data, f, default=default)]: JSON-native values are encoded
    structurally; for any other value the encoder encodes what [default]
    returned. *)
Fixpoint json_dump (default : pyval → option string) (v : pyval) : json :=
  match v with
  | PyNone => JNull
  | PyBool b => JBool b
  | PyInt n => JNum n
  | PyStr s => JStr s
  | PyList l => JArr (map (json_dump default) l)
  | PyDict items => JObj (map (fun kv => (kv.1, json_dump default kv.2)) items)
  | PyDatetime _ | PyDate _ | PyOther _ =>
      match default v with
      | Some s => JStr s
      | None => JNull
      end
  end.

(** *** [BackupFile.read.datetime_json_deserialize]

    One pass over [obj.items()]; [fromisoformat] raises [TypeError] on a
    value that is not a [str] and [ValueError] on a string it cannot
    parse, and both are swallowed. *)
Definition try_fromisoformat (value : pyval) : option datetime :=
  match value with
  | PyStr s => fromisoformat s
  | _ => None
  end.

Definition datetime_json_deserialize (obj : list (string * pyval))
    : list (string * pyval) :=
  fold_left
    (fun o fv =>
       match try_fromisoformat fv.2 with
       | Some d => dict_set fv.1 (PyDatetime d) o
       | None => o
       end)
    obj obj.

(** [json.load(f, object_hook=hook)]: every decoded object is built with
    [dict(pairs)] and replaced by [hook]'s result, innermost first. *)
Fixpoint json_load (hook : list (string * pyval) → list (string * pyval))
    (j : json) : pyval :=
  match j with
  | JNull => PyNone
  | JBool b => PyBool b
  | JNum n => PyInt n
  | JStr s => PyStr s
  | JArr l => PyList (map (json_load hook) l)
  | JObj members =>
      PyDict (hook (dict_of_pairs
        (map (fun kv => (kv.1, json_load hook kv.2)) members)))
  end.

End Values.

(** ** The snapshot store: [BackupFile] *)

Section Store.
Context {datetime date : Type} `{!DatetimeLib datetime date}.
Local Abbreviation pyval := (@pyval datetime date) (only parsing).

(** What a name in the backup directory denotes. *)
Inductive entry : Type :=
  | JsonFile (doc : json)   (** a regular file holding a JSON document *)
  | OtherFile               (** a regular file that is not valid JSON *)
  | SubDir.                 (** a directory *)

(** The state of [backup_dir_path]: [None] when it does not exist. *)
Abbreviation backup_dir := (option (gmap string entry)).

Record BackupFile : Type := {
  dir_name : string;
  file_name : string;
  revision_num_len : nat;
}.

Definition BACKUP_DIR_NAME : string := "backups".
Definition REVISION_START_FROM : string := "0001".

(** [Path(...).mkdir(parents=True, exist_ok=True)] *)
Definition mkdir (fs : backup_dir) : backup_dir :=
  match fs with
  | None => Some ∅
  | Some d => Some d
  end.

(** [BackupFile.__init__] *)
Definition init (dir_name file_name : string) (fs : backup_dir)
    : BackupFile * backup_dir :=
  ({| dir_name := dir_name;
      file_name := file_name;
      revision_num_len := String.length REVISION_START_FROM |},
   mkdir fs).

(** [os.listdir(path)] *)
Definition listdir (fs : backup_dir) : result (list string) :=
  match fs with
  | None => Raise FileNotFoundError
  | Some d => Return (map_to_list d).*1
  end.

(** [sorted(names)] *)
Definition sorted (names : list string) : list string :=
  merge_sort String.le names.

(** [BackupFile.latest_revision] *)
Definition latest_revision (self : BackupFile) (fs : backup_dir)
    : result (option string) :=
  entries ← listdir fs;
  let all_backups :=
    filter (fun dir_ => Py.endswith dir_ (file_name self)) entries in
  match all_backups with
  | [] => Return None
  | _ => Return (last (sorted all_backups))
  end.

(** [BackupFile.make_next_revision_number] *)
Definition make_next_revision_number (self : BackupFile) (fs : backup_dir)
    : result string :=
  latest ← latest_revision self fs;
  match latest with
  | None => Raise TypeError
  | Some r =>
      match Py.int (Py.slice_to (revision_num_len self) r) with
      | None => Raise ValueError
      | Some n =>
          let new_revision_number := n + 1 in
          Return (Py.format_0d (revision_num_len self) new_revision_number)
      end
  end.

(** [BackupFile.next_revision]; [not latest_revision] holds for [None]
    and for the empty string. *)
Definition next_revision (self : BackupFile) (fs : backup_dir)
    : result string :=
  latest ← latest_revision self fs;
  match latest with
  | Some (String _ _ as r) =>
      next_revision_number ← make_next_revision_number self fs;
      Return (next_revision_number +:+ Py.slice_from (revision_num_len self) r)
  | _ => Return (REVISION_START_FROM +:+ "_" +:+ file_name self)
  end.

(** [BackupFile.new_file_path], as a name inside [backup_dir_path]. *)
Definition new_file_path (self : BackupFile) (fs : backup_dir)
    : result string :=
  next_revision self fs.

(** [BackupFile.latest_file_path] *)
Definition latest_file_path (self : BackupFile) (fs : backup_dir)
    : result string :=
  latest ← latest_revision self fs;
  match latest with
  | Some (String _ _ as r) => Return r
  | _ => new_file_path self fs
  end.

(** [open(path, "w")] followed by writing [doc]: creates the file or
    truncates an existing one. *)
Definition write_file (path : string) (doc : json) (fs : backup_dir)
    : result backup_dir :=
  match fs with
  | None => Raise FileNotFoundError
  | Some d =>
      match d !! path with
      | Some SubDir => Raise IsADirectoryError
      | _ => Return (Some (<[path := JsonFile doc]> d))
      end
  end.

(** [open(path, "r")] followed by parsing the text. *)
Definition read_file (path : string) (fs : backup_dir) : result json :=
  match fs with
  | None => Raise FileNotFoundError
  | Some d =>
      match d !! path with
      | None => Raise FileNotFoundError
      | Some SubDir => Raise IsADirectoryError
      | Some OtherFile => Raise JSONDecodeError
      | Some (JsonFile doc) => Return doc
      end
  end.

(** [BackupFile.write] *)
Definition write (self : BackupFile) (data : pyval) (fs : backup_dir)
    : result backup_dir :=
  path ← new_file_path self fs;
  write_file path (json_dump datetime_json_serialize data) fs.

(** [BackupFile.read] *)
Definition read (self : BackupFile) (fs : backup_dir) : result pyval :=
  path ← latest_file_path self fs;
  doc ← read_file path fs;
  Return (json_load datetime_json_deserialize doc).

End Store.

Abbreviation backup_dir := (option (gmap string entry)).

(** ** A concrete datetime library: naive datetimes

    [isoformat] is Python's for a naive [datetime] and for a [date].
    [fromisoformat] accepts what every CPython from 3.7 on accepts for a
    naive value: [YYYY-MM-DD], optionally followed by one separator
    character and [HH[:MM[:SS[.fff[fff]]]]], with the range checks of the
    [datetime] constructor. Strings with a UTC offset (parsed by Python to
    aware datetimes) and the further ISO 8601 forms of Python 3.11 are
    outside this instance. *)

Module Naive.

Record datetime : Type := {
  year : Z; month : Z; day : Z;
  hour : Z; minute : Z; second : Z; microsecond : Z;
}.

Record date : Type := { dyear : Z; dmonth : Z; dday : Z }.

Definition is_leap (y : Z) : bool :=
  (y mod 4 =? 0) && (negb (y mod 100 =? 0) || (y mod 400 =? 0)).

Definition days_in_month (y m : Z) : Z :=
  match m with
  | 2 => if is_leap y then 29 else 28
  | 4 | 6 | 9 | 11 => 30
  | _ => 31
  end.

Definition valid_date (y m d : Z) : bool :=
  (1 <=? y) && (y <=? 9999) && (1 <=? m) && (m <=? 12)
  && (1 <=? d) && (d <=? days_in_month y m).

Definition valid_time (h mi s us : Z) : bool :=
  (0 <=? h) && (h <? 24) && (0 <=? mi) && (mi <? 60)
  && (0 <=? s) && (s <? 60) && (0 <=? us) && (us <? 1000000).

(** The invariant of a Python [datetime] object. *)
Definition valid (d : datetime) : bool :=
  valid_date (year d) (month d) (day d)
  && valid_time (hour d) (minute d) (second d) (microsecond d).

Definition date_isoformat (d : date) : string :=
  Py.format_0d 4 (dyear d) +:+ "-" +:+ Py.format_0d 2 (dmonth d)
  +:+ "-" +:+ Py.format_0d 2 (dday d).

Definition isoformat (d : datetime) : string :=
  Py.format_0d 4 (year d) +:+ "-" +:+ Py.format_0d 2 (month d)
  +:+ "-" +:+ Py.format_0d 2 (day d)
  +:+ "T" +:+ Py.format_0d 2 (hour d) +:+ ":" +:+ Py.format_0d 2 (minute d)
  +:+ ":" +:+ Py.format_0d 2 (second d)
  +:+ (if microsecond d =? 0 then ""
       else "." +:+ Py.format_0d 6 (microsecond d)).

(** A non-empty run of decimal digits. *)
Fixpoint number_acc (acc : Z) (s : string) : option Z :=
  match s with
  | "" => Some acc
  | String c s' =>
      match Py.digit_val c with
      | Some d => number_acc (10 * acc + d) s'
      | None => None
      end
  end.

Definition number (s : string) : option Z :=
  match s with
  | "" => None
  | _ => number_acc 0 s
  end.

(** [s[i:j]] *)
Definition sub (i j : nat) (s : string) : string :=
  Py.slice_to (j - i) (Py.slice_from i s).

Definition parse_date (s : string) : option (Z * Z * Z) :=
  if negb (String.length s =? 10)%nat then None
  else if negb (String.eqb (sub 4 5 s) "-" && String.eqb (sub 7 8 s) "-") then None
  else
    y ← number (sub 0 4 s);
    m ← number (sub 5 7 s);
    d ← number (sub 8 10 s);
    Some (y, m, d).

(** [HH[:MM[:SS[.fff[fff]]]]] *)
Definition parse_time (s : string) : option (Z * Z * Z * Z) :=
  let n := String.length s in
  if negb ((n =? 2) || (n =? 5) || (n =? 8) || (n =? 12) || (n =? 15))%nat
  then None
  else
    h ← number (sub 0 2 s);
    mi ← (if (n =? 2)%nat then Some 0
          else if String.eqb (sub 2 3 s) ":" then number (sub 3 5 s) else None);
    sec ← (if (n <=? 5)%nat then Some 0
           else if String.eqb (sub 5 6 s) ":" then number (sub 6 8 s) else None);
    us ← (if (n <=? 8)%nat then Some 0
          else if String.eqb (sub 8 9 s) "." then
            f ← number (sub 9 n s);
            Some (if (n =? 12)%nat then f * 1000 else f)
          else None);
    Some (h, mi, sec, us).

Definition fromisoformat (s : string) : option datetime :=
  '(y, m, d) ← parse_date (Py.slice_to 10 s);
  '(h, mi, sec, us) ←
    (match Py.slice_from 10 s with
     | "" => Some (0, 0, 0, 0)
     | String _ tstr => parse_time tstr
     end);
  if valid_date y m d && valid_time h mi sec us then
    Some {| year := y; month := m; day := d;
            hour := h; minute := mi; second := sec; microsecond := us |}
  else None.

Global Instance lib : DatetimeLib datetime date :=
  Build_DatetimeLib datetime date isoformat date_isoformat fromisoformat.

(** Values over naive datetimes. *)
Abbreviation value := (@pyval datetime date).

Definition mk (y m d h mi s us : Z) : datetime :=
  {| year := y; month := m; day := d;
     hour := h; minute := mi; second := s; microsecond := us |}.

End Naive.

(** ** Restore: [MigrationRestore] and [MigrationBackup.load] *)

(** The data-access collaborator (Django's ORM for the migration table).
    An operation returns its outcome together with the table as the
    operation left it, also when it raises. *)
Class TableAccess (datetime date : Type) : Type := {
  row : Type;
  table : Type;
  (** the row constructor [Migration], called with the fields as keywords *)
  Migration : list (string * @pyval datetime date) → result row;
  (** [Migration.objects.all().delete()] *)
  delete_all : table → result unit * table;
  (** [Migration.objects.bulk_create(rows)] *)
  bulk_create : list row → table → result unit * table;
}.

Section Restore.
Context {datetime date : Type} `{!DatetimeLib datetime date}
  `{!TableAccess datetime date}.
Local Abbreviation pyval := (@pyval datetime date) (only parsing).

(** [@transaction.atomic]: the decorated call commits when it returns and
    rolls the table back to its state at entry when it raises. *)
Definition atomic {A : Type} (f : table → result A * table)
    : table → result A * table :=
  fun t =>
    match f t with
    | (Return a, t') => (Return a, t')
    | (Raise e, _) => (Raise e, t)
    end.

(** The elements a [for] loop draws from a value. *)
Definition py_iter (v : pyval) : result (list pyval) :=
  match v with
  | PyList l => Return l
  | PyDict items => Return (map (fun kv => PyStr kv.1) items)
  | PyStr s => Return (map (fun c => PyStr (String c "")) (String.list_ascii_of_string s))
  | _ => Raise TypeError
  end.

(** The row constructor applied to [migration] expanded into keywords:
    the expanded value must be a mapping. *)
Definition make_migration (migration : pyval) : result row :=
  match migration with
  | PyDict items => Migration items
  | _ => Raise TypeError
  end.

Fixpoint for_each_append (elems : list pyval) (backup_migrations : list row)
    : result (list row) :=
  match elems with
  | [] => Return backup_migrations
  | migration :: rest =>
      r ← make_migration migration;
      for_each_append rest (backup_migrations ++ [r])
  end.

(** [get_migrations_data_from_backup], the same in both classes. *)
Definition get_migrations_data_from_backup (file_handler : BackupFile)
    (fs : backup_dir) : result (list row) :=
  migrations_data ← read file_handler fs;
  elems ← py_iter migrations_data;
  for_each_append elems [].

(** The body under the decorator: read, delete all, bulk insert. *)
Definition restore_body (file_handler : BackupFile) (fs : backup_dir)
    : table → result unit * table :=
  fun t =>
    match get_migrations_data_from_backup file_handler fs with
    | Raise e => (Raise e, t)
    | Return backup_migrations =>
        match delete_all t with
        | (Raise e, t1) => (Raise e, t1)
        | (Return _, t1) => bulk_create backup_migrations t1
        end
    end.

(** [MigrationRestore]: the two constants of [zero_migrations.constants]
    are parameters of the constructor. *)
Record MigrationRestore : Type := { restore_file_handler : BackupFile }.

Definition MigrationRestore_init
    (MIGRATION_TABLE_BACKUP_DIR_NAME MIGRATION_TABLE_BACKUP_FILE_NAME : string)
    (fs : backup_dir) : MigrationRestore * backup_dir :=
  let '(fh, fs') :=
    init MIGRATION_TABLE_BACKUP_DIR_NAME MIGRATION_TABLE_BACKUP_FILE_NAME fs in
  ({| restore_file_handler := fh |}, fs').

(** [MigrationRestore.restore] *)
Definition restore (self : MigrationRestore) (fs : backup_dir)
    : table → result unit * table :=
  atomic (restore_body (restore_file_handler self) fs).

(** [MigrationBackup] *)
Record MigrationBackup : Type := { file_handler : BackupFile }.

Definition BACKUP_FILE_NAME : string := "backup_migrations_table.json".

Definition MigrationBackup_init (fs : backup_dir)
    : MigrationBackup * backup_dir :=
  let '(fh, fs') := init "migrations" BACKUP_FILE_NAME fs in
  ({| file_handler := fh |}, fs').

(** [MigrationBackup.load] *)
Definition load (self : MigrationBackup) (fs : backup_dir)
    : table → result unit * table :=
  atomic (restore_body (file_handler self) fs).

End Restore.

(** A small concrete table: rows are field mappings, [Migration] rejects a
    keyword that is not a field, and [bulk_create] inserts row by row and
    stops with an error at a row whose [id] is already present. *)
Module SimpleTable.

Abbreviation value := Naive.value.

Definition fields : list string := ["id"; "app"; "name"; "applied"].

Definition row_id (r : list (string * value)) : option pyval :=
  snd <$> List.find (fun kv => String.eqb kv.1 "id") r.

Definition same_id (a b : list (string * value)) : bool :=
  match row_id a, row_id b with
  | Some (PyInt x), Some (PyInt y) => x =? y
  | _, _ => false
  end.

Definition make_row (items : list (string * value))
    : result (list (string * value)) :=
  if forallb (fun kv => existsb (String.eqb kv.1) fields) items
  then Return items else Raise TypeError.

Fixpoint insert_rows (rows : list (list (string * value)))
    (t : list (list (string * value)))
    : result unit * list (list (string * value)) :=
  match rows with
  | [] => (Return (), t)
  | r :: rows' =>
      if existsb (same_id r) t then (Raise DatabaseError, t)
      else insert_rows rows' (t ++ [r])
  end.

Global Instance access : TableAccess Naive.datetime Naive.date := {|
  row := list (string * value);
  table := list (list (string * value));
  Migration := make_row;
  delete_all := fun _ => (Return (), []);
  bulk_create := insert_rows;
|}.

End SimpleTable.

(** ** Vocabulary of the properties *)

Section Vocabulary.
Context {datetime date : Type} `{!DatetimeLib datetime date}.
Local Abbreviation pyval := (@pyval datetime date) (only parsing).

(** The handle [BackupFile(dir_name, file_name)] evaluates to. *)
Definition handle (dir_name file_name : string) : BackupFile :=
  (init dir_name file_name None).1.

(** [m] is the lexicographically greatest entry of [d] ending with the
    file name of [self]. *)
Definition is_latest (self : BackupFile) (d : gmap string entry) (m : string) : Prop :=
  m ∈ dom d ∧ Py.endswith m (file_name self)
  ∧ ∀ k, k ∈ dom d → Py.endswith k (file_name self) → String.le k m.

(** No entry of [d] ends with the file name of [self]. *)
Definition no_revision (self : BackupFile) (d : gmap string entry) : Prop :=
  ∀ k, k ∈ dom d → ¬ Py.endswith k (file_name self).

(** [N] consecutive [write] calls, recording the path each one wrote. *)
Fixpoint write_all (self : BackupFile) (datas : list pyval) (fs : backup_dir)
    : result (list string * backup_dir) :=
  match datas with
  | [] => Return ([], fs)
  | data :: rest =>
      path ← new_file_path self fs;
      fs' ← write self data fs;
      '(paths, fs'') ← write_all self rest fs';
      Return (path :: paths, fs'')
  end.

(** The revision name the [i]-th write to an empty directory should get. *)
Definition revision (name : string) (i : Z) : string :=
  Py.format_0d 4 i +:+ "_" +:+ name.

(** [k] revisions have been written: none yet, or [revision k] is the
    latest one. *)
Definition numbered (dn fn : string) (k : Z) (d : gmap string entry) : Prop :=
  (k = 0 ∧ no_revision (handle dn fn) d)
  ∨ (1 ≤ k ∧ is_latest (handle dn fn) d (revision fn k)).

(** The entry [m] starts with the four-digit decimal of a number below
    9999 and is long enough to hold the whole file name after it. *)
Definition canonical (name m : string) : bool :=
  match Py.int (Py.slice_to 4 m) with
  | Some n =>
      (0 <=? n) && (n <? 9999)
      && String.eqb (Py.slice_to 4 m) (Py.format_0d 4 n)
      && (4 + String.length name <=? String.length m)%nat
  | None => false
  end.

(** The directory exists and its latest revision, if any, is canonical. *)
Definition store_ready (self : BackupFile) (fs : backup_dir) : Prop :=
  match latest_revision self fs with
  | Return None => True
  | Return (Some m) => canonical (file_name self) m
  | Raise _ => False
  end.

(** What the object hook leaves in place of a field value. *)
Definition converted (value : pyval) : pyval :=
  match try_fromisoformat value with
  | Some d => PyDatetime d
  | None => value
  end.

Definition keys {A : Type} (items : list (string * A)) : list string := items.*1.

(** Values that survive [write] then [read]: [in_dict] tells whether the
    value is held directly as a field of a record. *)
Fixpoint stable (in_dict : bool) (v : pyval) : Prop :=
  match v with
  | PyNone | PyBool _ | PyInt _ => True
  | PyStr s => if in_dict then fromisoformat s = None else True
  | PyList l =>
      (fix all (l : list pyval) : Prop :=
         match l with
         | [] => True
         | x :: l' => stable false x ∧ all l'
         end) l
  | PyDict items =>
      NoDup (keys items)
      ∧ (fix all (l : list (string * pyval)) : Prop :=
           match l with
           | [] => True
           | kv :: l' => stable true kv.2 ∧ all l'
           end) items
  | PyDatetime d => if in_dict then fromisoformat (isoformat d) = Some d else False
  | PyDate _ | PyOther _ => False
  end.

(** What [read] makes of the document [write] stored for [v]. *)
Definition reread (v : pyval) : pyval :=
  json_load datetime_json_deserialize (json_dump datetime_json_serialize v).

(** A sequence of row-records. *)
Definition records (recs : list (list (string * pyval))) : pyval :=
  PyList (PyDict <$> recs).

End Vocabulary.

(** What is checked of ["%04d"] for each number [n] of [0..9999]: four
    characters, read back by [int] as [n], and strictly below the
    formatting of [n + 1] in the order of [sorted]. *)
Definition check_revision_number (n : Z) : bool :=
  (String.length (Py.format_0d 4 n) =? 4)%nat
  && match Py.int (Py.format_0d 4 n) with
     | Some m => m =? n
     | None => false
     end
  && ((n =? 9999) || String.ltb (Py.format_0d 4 n) (Py.format_0d 4 (n + 1))).

(** The [w] low decimal digits of [n], most significant first, in front
    of [acc]: what ["%0<w>d"] prints for [0 <= n < 10^w]. *)
Fixpoint fixed_acc (w : nat) (n : Z) (acc : string) : string :=
  match w with
  | O => acc
  | S w' => fixed_acc w' (n / 10) (String (Py.digit_char (n mod 10)) acc)
  end.

(** ** Backup: [MigrationBackup.save] *)

(** Reading the table (Django's ORM for the migration table). *)
Class TableRead (datetime date : Type) `{!TableAccess datetime date} : Type := {
  (** [Migration.objects.iterator()]: the rows, in the table's order *)
  iterator : table → list row;
  (** the names of [migration._meta.fields], in declaration order *)
  meta_fields : row → list string;
  (** the attribute of that name, [None] when the row has none *)
  getattr : row → string → option (@pyval datetime date);
}.

Section Backup.
Context {datetime date : Type} `{!DatetimeLib datetime date}
  `{!TableAccess datetime date} `{!TableRead datetime date}.
Local Abbreviation pyval := (@pyval datetime date) (only parsing).

(** The dict comprehension over [migration._meta.fields], with
    [getattr(migration, field.name, None)] as the value. *)
Definition migration_record (migration : row) : list (string * pyval) :=
  dict_of_pairs
    (map (fun name => (name, default PyNone (getattr migration name)))
       (meta_fields migration)).

(** [MigrationBackup.get_migrations_data_from_db] *)
Definition get_migrations_data_from_db (t : table) : pyval :=
  PyList (map (fun migration => PyDict (migration_record migration)) (iterator t)).

(** [MigrationBackup.save] *)
Definition save (self : MigrationBackup) (fs : backup_dir) (t : table)
    : result backup_dir :=
  let migrations_data := get_migrations_data_from_db t in
  write (file_handler self) migrations_data fs.

End Backup.

(** Reading the small concrete table: rows in insertion order, the four
    declared fields, attributes looked up by name. *)
Module SimpleRows.

Definition attribute (r : list (string * Naive.value)) (name : string)
    : option Naive.value :=
  snd <$> List.find (fun kv => String.eqb kv.1 name) r.

Global Instance reading : TableRead Naive.datetime Naive.date := {|
  iterator := fun t => t;
  meta_fields := fun _ => SimpleTable.fields;
  getattr := attribute;
|}.

End SimpleRows.

(** ** Vocabulary of the further properties *)

Section FurtherVocabulary.
Context {datetime date : Type} `{!DatetimeLib datetime date}.
Local Abbreviation pyval := (@pyval datetime date) (only parsing).

(** The shape of what [read] returns: [in_dict] tells whether the value is
    held directly as a field of a record. Records have distinct keys; a
    string left as a field is one [fromisoformat] rejects; a datetime is a
    field, and one [fromisoformat] produced; there is no date and no
    unsupported object. *)
Fixpoint loaded (in_dict : bool) (v : pyval) : Prop :=
  match v with
  | PyNone | PyBool _ | PyInt _ => True
  | PyStr s => if in_dict then fromisoformat s = None else True
  | PyList l =>
      (fix all (l : list pyval) : Prop :=
         match l with
         | [] => True
         | x :: l' => loaded false x ∧ all l'
         end) l
  | PyDict items =>
      NoDup (keys items)
      ∧ (fix all (l : list (string * pyval)) : Prop :=
           match l with
           | [] => True
           | kv :: l' => loaded true kv.2 ∧ all l'
           end) items
  | PyDatetime d => if in_dict then ∃ s, fromisoformat s = Some d else False
  | PyDate _ | PyOther _ => False
  end.

(** What [read] returns in place of a field that [write] was given. *)
Definition field_read_back (kv : string * pyval) : string * pyval :=
  (kv.1, converted (reread kv.2)).

(** [fromisoformat] parses again what [isoformat] prints for a datetime
    it produced. *)
Definition parsed_datetimes_reparse : Prop :=
  ∀ s d, fromisoformat s = Some d → fromisoformat (isoformat d) = Some d.

End FurtherVocabulary.

(** * Proofs *)

(** ** Evaluation checks of the string primitives and the datetime instance *)

Example int_0001 : Py.int "0001" = Some 1. Proof. reflexivity. Qed.
Example int_9999 : Py.int "9999" = Some 9999. Proof. reflexivity. Qed.
Example int_pad : Py.int " 12 " = Some 12. Proof. reflexivity. Qed.
Example int_us : Py.int "1_23" = Some 123. Proof. reflexivity. Qed.
Example int_us2 : Py.int "12_x" = None. Proof. reflexivity. Qed.
Example int_us3 : Py.int "1__2" = None. Proof. reflexivity. Qed.
Example int_us4 : Py.int "123_" = None. Proof. reflexivity. Qed.
Example int_neg : Py.int "-001" = Some (-1). Proof. reflexivity. Qed.
Example int_back : Py.int "back" = None. Proof. reflexivity. Qed.
Example fmt_2 : Py.format_0d 4 2 = "0002". Proof. reflexivity. Qed.
Example fmt_0 : Py.format_0d 4 0 = "0000". Proof. reflexivity. Qed.
Example fmt_10000 : Py.format_0d 4 10000 = "10000". Proof. reflexivity. Qed.
Example fmt_neg : Py.format_0d 4 (-1) = "-001". Proof. reflexivity. Qed.
Example fmt_big : Py.format_0d 4 1234567 = "1234567". Proof. reflexivity. Qed.
Example ends1 : Py.endswith "0001_x.json" "x.json" = true. Proof. reflexivity. Qed.
Example ends2 : Py.endswith "x.json" "0001_x.json" = false. Proof. reflexivity. Qed.
Example ends3 : Py.endswith "abc" "" = true. Proof. reflexivity. Qed.

Example iso_1 : Naive.isoformat (Naive.mk 2024 1 1 0 0 0 0) = "2024-01-01T00:00:00".
Proof. reflexivity. Qed.
Example iso_2 :
  Naive.isoformat (Naive.mk 987 12 31 23 59 58 1200) = "0987-12-31T23:59:58.001200".
Proof. reflexivity. Qed.
Example fromiso_1 :
  Naive.fromisoformat "2024-01-01T00:00:00" = Some (Naive.mk 2024 1 1 0 0 0 0).
Proof. reflexivity. Qed.
Example fromiso_2 :
  Naive.fromisoformat "0987-12-31 23:59:58.001200" = Some (Naive.mk 987 12 31 23 59 58 1200).
Proof. reflexivity. Qed.
Example fromiso_3 : Naive.fromisoformat "2024-01-01" = Some (Naive.mk 2024 1 1 0 0 0 0).
Proof. reflexivity. Qed.
Example fromiso_4 : Naive.fromisoformat "2023-02-29T00:00:00" = None.
Proof. reflexivity. Qed.
Example fromiso_5 : Naive.fromisoformat "init" = None.
Proof. reflexivity. Qed.
Example fromiso_6 : Naive.fromisoformat "2024-01-01T10:30:00.5" = None.
Proof. reflexivity. Qed.
Example fromiso_7 :
  Naive.fromisoformat "2024-01-01T10:30:00.500" = Some (Naive.mk 2024 1 1 10 30 0 500000).
Proof. reflexivity. Qed.


(** ** Strings *)

Lemma string_length_app (a b : string) :
  String.length (a +:+ b) = (String.length a + String.length b)%nat.
Proof. induction a as [|c a IH]; simpl; [done|]. by rewrite IH. Qed.

Lemma slice_to_app (a b : string) : Py.slice_to (String.length a) (a +:+ b) = a.
Proof. induction a as [|c a IH]; simpl; [by destruct b|]. by rewrite IH. Qed.

Lemma slice_from_app (a b : string) : Py.slice_from (String.length a) (a +:+ b) = b.
Proof. induction a as [|c a IH]; simpl; [by destruct b|]. done. Qed.

Lemma slice_to_from (n : nat) (s : string) : Py.slice_to n s +:+ Py.slice_from n s = s.
Proof.
  revert s. induction n as [|n IH]; intros [|c s]; simpl; try done.
  change (String c (Py.slice_to n s +:+ Py.slice_from n s) = String c s).
  by rewrite IH.
Qed.

Lemma slice_to_length (n : nat) (s : string) :
  (n ≤ String.length s)%nat → String.length (Py.slice_to n s) = n.
Proof.
  revert s. induction n as [|n IH]; intros [|c s]; simpl; try done; try lia.
  intros ?. rewrite IH; lia.
Qed.

Lemma slice_from_add (n k : nat) (s : string) :
  Py.slice_from (n + k) s = Py.slice_from k (Py.slice_from n s).
Proof.
  revert s. induction n as [|n IH]; intros s; simpl; [done|].
  destruct s as [|c s]; [by destruct k|]. apply IH.
Qed.

Lemma string_app_assoc (a b c : string) : (a +:+ b) +:+ c = a +:+ (b +:+ c).
Proof.
  induction a as [|x a IH]; [done|].
  change (String x ((a +:+ b) +:+ c) = String x (a +:+ (b +:+ c))).
  by rewrite IH.
Qed.

Lemma endswith_spec (s suffix : string) :
  Py.endswith s suffix ↔ ∃ p, s = p +:+ suffix.
Proof.
  unfold Py.endswith. split.
  - destruct (_ <=? _)%nat eqn:Hle; [|done].
    intros Heq%Is_true_true%String.eqb_eq.
    exists (Py.slice_to (String.length s - String.length suffix) s).
    revert Heq. generalize (String.length s - String.length suffix)%nat.
    intros n <-. by rewrite slice_to_from.
  - intros [p ->]. rewrite string_length_app.
    replace (String.length suffix <=? String.length p + String.length suffix)%nat
      with true by (symmetry; apply Nat.leb_le; lia).
    replace (String.length p + String.length suffix - String.length suffix)%nat
      with (String.length p) by lia.
    rewrite slice_from_app. apply Is_true_true, String.eqb_refl.
Qed.

Lemma endswith_app (p suffix : string) : Py.endswith (p +:+ suffix) suffix.
Proof. apply endswith_spec. by exists p. Qed.

Lemma string_compare_refl (s : string) : String.compare s s = Eq.
Proof.
  pose proof (String.compare_antisym s s) as Ha.
  by destruct (String.compare s s).
Qed.

(** Appending a common tail to two strings of the same length does not
    change how they compare. *)
Lemma compare_app_same_length (a b s : string) :
  String.length a = String.length b →
  String.compare (a +:+ s) (b +:+ s) = String.compare a b.
Proof.
  revert b. induction a as [|x a IH]; intros [|y b] Hlen; simpl in *; try done.
  - apply string_compare_refl.
  - change (match Ascii.compare x y with
            | Eq => String.compare (a +:+ s) (b +:+ s)
            | c => c
            end = match Ascii.compare x y with
                  | Eq => String.compare a b
                  | c => c
                  end).
    destruct (Ascii.compare x y); try done. apply IH. lia.
Qed.

Lemma string_lt_app (a b s : string) :
  String.length a = String.length b →
  String.ltb a b = true → String.ltb (a +:+ s) (b +:+ s) = true.
Proof.
  intros Hlen. unfold String.ltb. by rewrite compare_app_same_length.
Qed.

Lemma string_ltb_le (a b : string) : String.ltb a b = true → String.le a b.
Proof.
  unfold String.ltb, String.le, String.leb.
  destruct (String.compare a b); done.
Qed.

Lemma string_ltb_ne (a b : string) : String.ltb a b = true → a ≠ b.
Proof.
  unfold String.ltb. intros Hlt ->.
  by rewrite string_compare_refl in Hlt.
Qed.

Lemma string_ltb_not_le (a b : string) : String.ltb a b = true → ¬ String.le b a.
Proof.
  intros Hlt Hle. apply (string_ltb_ne a b Hlt).
  apply (anti_symm String.le); [by apply string_ltb_le|done].
Qed.

(** ** Four-digit revision numbers

    The facts about ["%04d"] on [0..9999] are checked by evaluation over
    the whole range. *)

Lemma check_revision_numbers :
  List.forallb check_revision_number (seqZ 0 10000) = true.
Proof. vm_compute. reflexivity. Qed.

Lemma check_revision_number_true (n : Z) :
  0 ≤ n ≤ 9999 → check_revision_number n = true.
Proof.
  intros Hn. pose proof check_revision_numbers as Hall.
  rewrite List.forallb_forall in Hall. apply Hall.
  apply list_elem_of_In, elem_of_seqZ. lia.
Qed.

Lemma format_length (n : Z) :
  0 ≤ n ≤ 9999 → String.length (Py.format_0d 4 n) = 4%nat.
Proof.
  intros Hn%check_revision_number_true. unfold check_revision_number in Hn.
  apply andb_prop in Hn as [Hn _]. apply andb_prop in Hn as [Hn _].
  by apply Nat.eqb_eq in Hn.
Qed.

Lemma int_format (n : Z) :
  0 ≤ n ≤ 9999 → Py.int (Py.format_0d 4 n) = Some n.
Proof.
  intros Hn%check_revision_number_true. unfold check_revision_number in Hn.
  apply andb_prop in Hn as [Hn _]. apply andb_prop in Hn as [_ Hn].
  destruct (Py.int _) as [m|]; [|done]. apply Z.eqb_eq in Hn. by subst.
Qed.

Lemma format_succ_lt (n : Z) :
  0 ≤ n < 9999 →
  String.ltb (Py.format_0d 4 n) (Py.format_0d 4 (n + 1)) = true.
Proof.
  intros Hn. assert (0 ≤ n ≤ 9999) as Hc%check_revision_number_true by lia.
  unfold check_revision_number in Hc.
  apply andb_prop in Hc as [_ Hc]. apply orb_prop in Hc as [Hc|Hc]; [|done].
  apply Z.eqb_eq in Hc. lia.
Qed.

Lemma revision_succ_lt (name : string) (n : Z) :
  0 ≤ n < 9999 → String.ltb (revision name n) (revision name (n + 1)) = true.
Proof.
  intros Hn. unfold revision. apply string_lt_app.
  - rewrite !format_length; lia.
  - by apply format_succ_lt.
Qed.

Lemma revision_endswith (name : string) (n : Z) :
  Py.endswith (revision name n) name.
Proof.
  unfold revision. apply endswith_spec.
  exists (Py.format_0d 4 n +:+ "_"). by rewrite string_app_assoc.
Qed.

Lemma revision_slice_to (name : string) (n : Z) :
  0 ≤ n ≤ 9999 → Py.slice_to 4 (revision name n) = Py.format_0d 4 n.
Proof.
  intros Hn. unfold revision. rewrite <- (format_length n Hn) at 1.
  apply slice_to_app.
Qed.

Lemma revision_slice_from (name : string) (n : Z) :
  0 ≤ n ≤ 9999 → Py.slice_from 4 (revision name n) = "_" +:+ name.
Proof.
  intros Hn. unfold revision. rewrite <- (format_length n Hn) at 1.
  apply slice_from_app.
Qed.

Lemma revision_start (name : string) :
  REVISION_START_FROM +:+ "_" +:+ name = revision name 1.
Proof. reflexivity. Qed.

(** ** The latest revision *)

Section Latest.

Lemma elem_of_listdir (d : gmap string entry) (k : string) :
  k ∈ (map_to_list d).*1 ↔ k ∈ dom d.
Proof.
  rewrite elem_of_dom, list_elem_of_fmap. split.
  - intros [[k' e] [-> Hin]]. apply elem_of_map_to_list in Hin. by exists e.
  - intros [e He]. exists (k, e). split; [done|]. by apply elem_of_map_to_list.
Qed.

(** The last element of a sorted list is above every element. *)
Lemma last_sorted_max (l : list string) (x y : string) :
  last (sorted l) = Some x → y ∈ l → String.le y x.
Proof.
  intros Hlast Hy. unfold sorted in *.
  assert (StronglySorted String.le (merge_sort String.le l)) as Hs
    by apply (StronglySorted_merge_sort _).
  apply last_Some in Hlast as [l' Hl']. rewrite Hl' in Hs.
  assert (y ∈ l' ++ [x]) as Hy'.
  { rewrite <- Hl'. by rewrite merge_sort_Permutation. }
  apply elem_of_app in Hy' as [Hy'|Hy'].
  - eapply StronglySorted_app_1_elem_of; [done..|]. by apply list_elem_of_singleton.
  - apply list_elem_of_singleton in Hy' as ->. done.
Qed.

Lemma last_sorted_elem (l : list string) (x : string) :
  last (sorted l) = Some x → x ∈ l.
Proof.
  intros Hlast%last_Some_elem_of. unfold sorted in Hlast.
  by rewrite merge_sort_Permutation in Hlast.
Qed.

Lemma latest_revision_None (self : BackupFile) (d : gmap string entry) :
  no_revision self d → latest_revision self (Some d) = Return None.
Proof.
  intros Hno. unfold latest_revision. simpl.
  destruct (filter _ _) as [|k l] eqn:Hf; [done|].
  assert (k ∈ filter (λ dir_ : string, Py.endswith dir_ (file_name self))
                (map_to_list d).*1) as Hk by (rewrite Hf; left).
  apply list_elem_of_filter in Hk as [Hk Hin].
  apply elem_of_listdir in Hin. by destruct (Hno k Hin).
Qed.

Lemma latest_revision_Some (self : BackupFile) (d : gmap string entry) (m : string) :
  is_latest self d m → latest_revision self (Some d) = Return (Some m).
Proof.
  intros (Hin & Hm & Hmax). unfold latest_revision. simpl.
  set (l := filter _ _).
  assert (∀ k, k ∈ l ↔ Py.endswith k (file_name self) ∧ k ∈ dom d) as Hl.
  { intros k. unfold l. rewrite list_elem_of_filter, elem_of_listdir. done. }
  assert (m ∈ l) as Hml by by apply Hl.
  destruct l as [|k0 l0] eqn:El; [by apply elem_of_nil in Hml|].
  rewrite <- El in *. clear El k0 l0.
  destruct (last (sorted l)) as [x|] eqn:Hlast.
  - do 2 f_equal. apply (anti_symm String.le).
    + apply Hmax; apply Hl; by eapply last_sorted_elem.
    + by eapply last_sorted_max.
  - apply last_None in Hlast. unfold sorted in Hlast.
    assert (m ∈ merge_sort String.le l) as Hm' by by rewrite merge_sort_Permutation.
    rewrite Hlast in Hm'. by apply elem_of_nil in Hm'.
Qed.

(** The two cases above are the only ones. *)
Lemma latest_revision_cases (self : BackupFile) (d : gmap string entry) :
  no_revision self d ∨ ∃ m, is_latest self d m.
Proof.
  destruct (filter (λ dir_ : string, Py.endswith dir_ (file_name self))
              (map_to_list d).*1) as [|k l] eqn:Hf.
  - left. intros k Hk Hend.
    assert (k ∈ filter (λ dir_ : string, Py.endswith dir_ (file_name self))
                  (map_to_list d).*1) as Hin.
    { apply list_elem_of_filter. split; [done|]. by apply elem_of_listdir. }
    rewrite Hf in Hin. by apply elem_of_nil in Hin.
  - right. set (l' := k :: l) in *.
    destruct (last (sorted l')) as [x|] eqn:Hlast.
    + exists x.
      assert (x ∈ l') as Hx by by apply last_sorted_elem.
      rewrite <- Hf in Hx. apply list_elem_of_filter in Hx as [Hx1 Hx2].
      split; [by apply elem_of_listdir|]. split; [done|].
      intros k' Hk' Hend. eapply last_sorted_max; [done|].
      rewrite <- Hf. apply list_elem_of_filter. split; [done|].
      by apply elem_of_listdir.
    + apply last_None in Hlast. unfold sorted in Hlast.
      assert (k ∈ merge_sort String.le l') as Hk.
      { rewrite merge_sort_Permutation. left. }
      rewrite Hlast in Hk. by apply elem_of_nil in Hk.
Qed.

Lemma is_latest_unique (self : BackupFile) (d : gmap string entry) (m m' : string) :
  is_latest self d m → is_latest self d m' → m = m'.
Proof.
  intros (? & ? & Hmax) (? & ? & Hmax').
  apply (anti_symm String.le); [by apply Hmax'|by apply Hmax].
Qed.

End Latest.

(** ** Next revision and new file path *)

Section NextRevision.

Lemma next_revision_first (self : BackupFile) (d : gmap string entry) :
  no_revision self d →
  next_revision self (Some d)
  = Return (REVISION_START_FROM +:+ "_" +:+ file_name self).
Proof.
  intros Hno. unfold next_revision. by rewrite latest_revision_None.
Qed.

Lemma next_revision_increment (self : BackupFile) (d : gmap string entry)
    (m : string) (n : Z) :
  is_latest self d m → m ≠ "" →
  Py.int (Py.slice_to (revision_num_len self) m) = Some n →
  next_revision self (Some d)
  = Return (Py.format_0d (revision_num_len self) (n + 1)
            +:+ Py.slice_from (revision_num_len self) m).
Proof.
  intros Hm Hne Hint. unfold next_revision, make_next_revision_number.
  rewrite (latest_revision_Some _ _ _ Hm). simpl.
  destruct m as [|c m]; [done|]. by rewrite Hint.
Qed.

Lemma next_revision_invalid (self : BackupFile) (d : gmap string entry)
    (m : string) :
  is_latest self d m → m ≠ "" →
  Py.int (Py.slice_to (revision_num_len self) m) = None →
  next_revision self (Some d) = Raise ValueError.
Proof.
  intros Hm Hne Hint. unfold next_revision, make_next_revision_number.
  rewrite (latest_revision_Some _ _ _ Hm). simpl.
  destruct m as [|c m]; [done|]. by rewrite Hint.
Qed.

(** Entries that do not end with the file name play no role. *)
Lemma latest_revision_only_matching (self : BackupFile)
    (d d' : gmap string entry) :
  (∀ k, Py.endswith k (file_name self) → k ∈ dom d ↔ k ∈ dom d') →
  latest_revision self (Some d) = latest_revision self (Some d').
Proof.
  intros Hsame.
  destruct (latest_revision_cases self d) as [Hno|[m Hm]].
  - rewrite (latest_revision_None _ _ Hno). symmetry.
    apply latest_revision_None. intros k Hk Hend.
    apply (Hno k); [by apply Hsame|done].
  - rewrite (latest_revision_Some _ _ _ Hm). symmetry.
    apply latest_revision_Some. destruct Hm as (Hin & Hend & Hmax).
    split; [by apply Hsame|]. split; [done|].
    intros k Hk Hk'. apply Hmax; [by apply Hsame|done].
Qed.

Lemma next_revision_only_matching (self : BackupFile)
    (d d' : gmap string entry) :
  (∀ k, Py.endswith k (file_name self) → k ∈ dom d ↔ k ∈ dom d') →
  next_revision self (Some d) = next_revision self (Some d').
Proof.
  intros Hsame. unfold next_revision, make_next_revision_number.
  by rewrite (latest_revision_only_matching self d d' Hsame).
Qed.

(** When the latest revision is canonical, the next one ends with the file
    name, lies strictly above it and so is not in the directory. *)
Lemma canonical_spec (name m : string) :
  canonical name m →
  ∃ n, 0 ≤ n < 9999 ∧ Py.int (Py.slice_to 4 m) = Some n
       ∧ Py.slice_to 4 m = Py.format_0d 4 n
       ∧ (4 + String.length name ≤ String.length m)%nat.
Proof.
  unfold canonical. destruct (Py.int _) as [n|]; [|done].
  intros Hc%Is_true_true.
  repeat (apply andb_prop in Hc as [Hc ?]).
  exists n. repeat split; try lia; try done.
  - by apply String.eqb_eq.
  - by apply Nat.leb_le.
Qed.

Lemma canonical_next (name m : string) (n : Z) :
  0 ≤ n < 9999 → Py.slice_to 4 m = Py.format_0d 4 n →
  (4 + String.length name ≤ String.length m)%nat → Py.endswith m name →
  let next := Py.format_0d 4 (n + 1) +:+ Py.slice_from 4 m in
  Py.endswith next name ∧ String.ltb m next = true.
Proof.
  intros Hn Hpre Hlen Hend next. split.
  - apply endswith_spec in Hend as [p ->].
    rewrite string_length_app in Hlen.
    assert (4 ≤ String.length p)%nat as Hp by lia.
    apply endswith_spec.
    exists (Py.format_0d 4 (n + 1) +:+ Py.slice_from 4 p).
    unfold next. rewrite string_app_assoc. f_equal.
    rewrite <- (slice_to_from 4 p) at 1. rewrite string_app_assoc.
    rewrite <- (slice_to_length 4 p Hp) at 1. by rewrite slice_from_app.
  - rewrite <- (slice_to_from 4 m) at 1. rewrite Hpre. unfold next.
    apply string_lt_app; [|by apply format_succ_lt].
    rewrite !format_length; lia.
Qed.

End NextRevision.

(** ** One write *)

Section Write.
Context {datetime date : Type} `{!DatetimeLib datetime date}.
Local Abbreviation pyval := (@pyval datetime date) (only parsing).

Lemma init_handle (dn fn : string) (fs : backup_dir) :
  (init dn fn fs).1 = handle dn fn.
Proof. reflexivity. Qed.

Lemma store_ready_cases (self : BackupFile) (d : gmap string entry) :
  store_ready self (Some d) →
  no_revision self d ∨ ∃ m, is_latest self d m ∧ canonical (file_name self) m.
Proof.
  unfold store_ready. intros Hr.
  destruct (latest_revision_cases self d) as [Hno|[m Hm]]; [by left|].
  right. exists m. split; [done|].
  by rewrite (latest_revision_Some _ _ _ Hm) in Hr.
Qed.

Lemma write_file_fresh (path : string) (doc : json) (d : gmap string entry) :
  path ∉ dom d →
  write_file path doc (Some d) = Return (Some (<[path := JsonFile doc]> d)).
Proof.
  intros Hp%not_elem_of_dom. unfold write_file. by rewrite Hp.
Qed.

Lemma is_latest_insert_above (self : BackupFile) (d : gmap string entry)
    (path : string) (e : entry) :
  Py.endswith path (file_name self) →
  (∀ k, k ∈ dom d → Py.endswith k (file_name self) → String.le k path) →
  is_latest self (<[path := e]> d) path.
Proof.
  intros Hend Hmax. split; [|split; [done|]].
  - rewrite dom_insert_L. set_solver.
  - intros k Hk Hk'. rewrite dom_insert_L in Hk.
    apply elem_of_union in Hk as [->%elem_of_singleton|Hk]; [done|].
    by apply Hmax.
Qed.

(** A write to a ready store: the path is new, the file is created there,
    and it becomes the latest revision. *)
Lemma write_ready (dn fn : string) (d : gmap string entry) (data : pyval) :
  store_ready (handle dn fn) (Some d) →
  ∃ path,
    new_file_path (handle dn fn) (Some d) = Return path
    ∧ (path ∉ dom d)
    ∧ write (handle dn fn) data (Some d)
      = Return (Some (<[path := JsonFile (json_dump datetime_json_serialize data)]> d))
    ∧ is_latest (handle dn fn)
        (<[path := JsonFile (json_dump datetime_json_serialize data)]> d) path
    ∧ path ≠ "".
Proof.
  intros [Hno|(m & Hm & Hc)]%store_ready_cases.
  - exists (revision fn 1).
    assert (revision fn 1 ∉ dom d) as Hfresh.
    { intros Hin. apply (Hno _ Hin). apply revision_endswith. }
    assert (new_file_path (handle dn fn) (Some d) = Return (revision fn 1)) as Hp.
    { unfold new_file_path. by rewrite next_revision_first. }
    split; [done|]. split; [done|]. split; [|split; [|done]].
    + unfold write. rewrite Hp. simpl. by apply write_file_fresh.
    + apply is_latest_insert_above; [apply revision_endswith|].
      intros k Hk Hend. by destruct (Hno k Hk).
  - apply canonical_spec in Hc as (n & Hn & Hint & Hpre & Hlen).
    simpl in Hlen.
    assert (m ≠ "") as Hne by (intros ->; simpl in Hlen; lia).
    set (path := Py.format_0d 4 (n + 1) +:+ Py.slice_from 4 m).
    destruct (canonical_next fn m n Hn Hpre Hlen) as [Hend Hlt];
      [by destruct Hm as (_ & ? & _)|]. fold path in Hend, Hlt.
    assert (new_file_path (handle dn fn) (Some d) = Return path) as Hp.
    { unfold new_file_path.
      by rewrite (next_revision_increment _ _ m n Hm Hne Hint). }
    assert (path ∉ dom d) as Hfresh.
    { intros Hin. destruct Hm as (_ & _ & Hmax).
      by apply (string_ltb_not_le _ _ Hlt), Hmax. }
    exists path. split; [done|]. split; [done|]. split; [|split].
    + unfold write. rewrite Hp. simpl. by apply write_file_fresh.
    + apply is_latest_insert_above; [done|].
      intros k Hk Hk'. destruct Hm as (_ & _ & Hmax).
      etrans; [by apply Hmax|]. by apply string_ltb_le.
    + intros Hp0. unfold path in Hp0.
      assert (String.length (Py.format_0d 4 (n + 1) +:+ Py.slice_from 4 m) = 0%nat)
        as Hl by by rewrite Hp0.
      rewrite string_length_app, format_length in Hl; lia.
Qed.

Lemma read_latest (self : BackupFile) (d : gmap string entry) (m : string) :
  is_latest self d m → m ≠ "" →
  read self (Some d)
  = doc ← read_file m (Some d); Return (json_load datetime_json_deserialize doc).
Proof.
  intros Hm Hne. unfold read, latest_file_path.
  rewrite (latest_revision_Some _ _ _ Hm). simpl.
  by destruct m.
Qed.

End Write.

(** ** Consecutive writes *)

Section Writes.
Context {datetime date : Type} `{!DatetimeLib datetime date}.
Local Abbreviation pyval := (@pyval datetime date) (only parsing).

Lemma revision_canonical (fn : string) (k : Z) :
  0 ≤ k < 9999 → canonical fn (revision fn k).
Proof.
  intros Hk. unfold canonical.
  rewrite revision_slice_to by lia. rewrite int_format by lia.
  apply Is_true_true. repeat (apply andb_true_intro; split).
  - apply Z.leb_le. lia.
  - apply Z.ltb_lt. lia.
  - apply String.eqb_refl.
  - apply Nat.leb_le. unfold revision.
    rewrite !string_length_app, format_length by lia. simpl. lia.
Qed.

Lemma numbered_ready (dn fn : string) (k : Z) (d : gmap string entry) :
  numbered dn fn k d → 0 ≤ k < 9999 → store_ready (handle dn fn) (Some d).
Proof.
  intros [[-> Hno]|[Hk Hm]] Hr; unfold store_ready.
  - by rewrite latest_revision_None.
  - rewrite (latest_revision_Some _ _ _ Hm). by apply revision_canonical.
Qed.

Lemma revision_ne_empty (fn : string) (k : Z) : revision fn k ≠ "".
Proof.
  intros Hp.
  assert (String.length (revision fn k) = 0%nat) as Hl by by rewrite Hp.
  unfold revision in Hl. rewrite !string_length_app in Hl. simpl in Hl. lia.
Qed.

Lemma numbered_new_file_path (dn fn : string) (k : Z) (d : gmap string entry) :
  numbered dn fn k d → 0 ≤ k ≤ 9999 →
  new_file_path (handle dn fn) (Some d) = Return (revision fn (k + 1)).
Proof.
  intros [[-> Hno]|[Hk Hm]] Hr; unfold new_file_path.
  - by rewrite next_revision_first.
  - rewrite (next_revision_increment _ _ (revision fn k) k Hm).
    + change (revision_num_len (handle dn fn)) with 4%nat.
      by rewrite revision_slice_from by lia.
    + apply revision_ne_empty.
    + change (revision_num_len (handle dn fn)) with 4%nat.
      rewrite revision_slice_to by lia. apply int_format. lia.
Qed.

Lemma write_numbered (dn fn : string) (k : Z) (d : gmap string entry)
    (data : pyval) :
  numbered dn fn k d → 0 ≤ k < 9999 →
  let path := revision fn (k + 1) in
  let d' := <[path := JsonFile (json_dump datetime_json_serialize data)]> d in
  (path ∉ dom d)
  ∧ write (handle dn fn) data (Some d) = Return (Some d')
  ∧ numbered dn fn (k + 1) d'.
Proof.
  intros Hnum Hk path d'.
  destruct (write_ready dn fn d data) as (p & Hp & Hfresh & Hw & Hlat & _);
    [by eapply numbered_ready|].
  rewrite (numbered_new_file_path dn fn k d Hnum) in Hp by lia.
  injection Hp as <-. split; [done|]. split; [done|].
  right. split; [lia|done].
Qed.

Lemma write_all_numbered (dn fn : string) (datas : list pyval) :
  ∀ (k : Z) (d : gmap string entry),
    numbered dn fn k d → 0 ≤ k → k + Z.of_nat (length datas) ≤ 9999 →
    ∃ d',
      write_all (handle dn fn) datas (Some d)
      = Return (revision fn <$> seqZ (k + 1) (Z.of_nat (length datas)), Some d')
      ∧ numbered dn fn (k + Z.of_nat (length datas)) d'
      ∧ dom d' = dom d ∪ list_to_set (revision fn <$> seqZ (k + 1) (Z.of_nat (length datas)))
      ∧ (∀ key, key ∈ dom d → d' !! key = d !! key)
      ∧ (∀ (i : nat) data, datas !! i = Some data →
           d' !! revision fn (k + 1 + Z.of_nat i)
           = Some (JsonFile (json_dump datetime_json_serialize data))).
Proof.
  induction datas as [|data rest IH]; intros k d Hnum Hk0 Hk.
  - exists d. simpl. rewrite Z.add_0_r. split; [done|]. split; [done|].
    split; [set_solver|]. split; [done|]. intros i data Hi. done.
  - simpl length in *. rewrite Nat2Z.inj_succ in *.
    destruct (write_numbered dn fn k d data Hnum) as (Hfresh & Hw & Hnum');
      [lia|].
    set (d1 := <[revision fn (k + 1) := _]> d) in *.
    destruct (IH (k + 1) d1 Hnum') as (d' & Hall & Hnum'' & Hdom & Hold & Hnew);
      [lia..|].
    exists d'. split; [|split; [|split; [|split]]].
    + rewrite seqZ_cons by lia. rewrite fmap_cons.
      replace (Z.succ (k + 1)) with (k + 1 + 1) by lia.
      replace (Z.pred (Z.succ (Z.of_nat (length rest))))
        with (Z.of_nat (length rest)) by lia.
      cbn [write_all].
      rewrite (numbered_new_file_path dn fn k d Hnum) by lia.
      cbn [mbind result_bind]. rewrite Hw. cbn [mbind result_bind].
      rewrite Hall. done.
    + by replace (k + Z.succ (Z.of_nat (length rest)))
        with (k + 1 + Z.of_nat (length rest)) by lia.
    + rewrite Hdom. unfold d1. rewrite dom_insert_L.
      rewrite (seqZ_cons (k + 1)) by lia. rewrite fmap_cons, list_to_set_cons.
      replace (Z.succ (k + 1)) with (k + 1 + 1) by lia.
      replace (Z.pred (Z.succ (Z.of_nat (length rest))))
        with (Z.of_nat (length rest)) by lia.
      set_solver.
    + intros key Hkey. rewrite Hold.
      * unfold d1. apply lookup_insert_ne. intros <-. done.
      * unfold d1. rewrite dom_insert_L. set_solver.
    + intros [|i] data' Hi; simpl in Hi.
      * injection Hi as <-. rewrite Z.add_0_r. rewrite Hold.
        -- unfold d1. apply lookup_insert_eq.
        -- unfold d1. rewrite dom_insert_L. set_solver.
      * replace (k + 1 + Z.of_nat (S i)) with (k + 1 + 1 + Z.of_nat i) by lia.
        by apply Hnew.
Qed.

Lemma write_all_app (self : BackupFile) (l1 l2 : list pyval) (fs : backup_dir) :
  write_all self (l1 ++ l2) fs
  = '(p1, fs1) ← write_all self l1 fs;
    '(p2, fs2) ← write_all self l2 fs1;
    Return (p1 ++ p2, fs2).
Proof.
  revert fs. induction l1 as [|x l1 IH]; intros fs; simpl.
  - destruct (write_all self l2 fs) as [[p2 fs2]|]; done.
  - destruct (new_file_path self fs) as [path|]; [|done]. simpl.
    destruct (write self x fs) as [fs'|]; [|done]. simpl.
    rewrite IH. destruct (write_all self l1 fs') as [[p1 fs1]|]; [|done]. simpl.
    destruct (write_all self l2 fs1) as [[p2 fs2]|]; done.
Qed.

End Writes.

(** ** Serialisation and the object hook *)

Section Json.
Context {datetime date : Type} `{!DatetimeLib datetime date}.
Local Abbreviation pyval := (@pyval datetime date) (only parsing).

(** Induction on values, through lists and records. *)
Lemma pyval_nested_ind (P : pyval → Prop) :
  P PyNone →
  (∀ b, P (PyBool b)) →
  (∀ n, P (PyInt n)) →
  (∀ s, P (PyStr s)) →
  (∀ l, Forall P l → P (PyList l)) →
  (∀ items, Forall (λ kv, P kv.2) items → P (PyDict items)) →
  (∀ d, P (PyDatetime d)) →
  (∀ d, P (PyDate d)) →
  (∀ tag, P (PyOther tag)) →
  ∀ v, P v.
Proof.
  intros HNone HBool HInt HStr HList HDict HDt HDate HOther.
  fix IH 1. intros [|b|n|s|l|items|d|d|tag].
  - exact HNone.
  - exact (HBool b).
  - exact (HInt n).
  - exact (HStr s).
  - apply HList. induction l as [|x l IHl]; constructor; [apply IH|apply IHl].
  - apply HDict. induction items as [|[k x] items IHl]; constructor;
      [apply IH|apply IHl].
  - exact (HDt d).
  - exact (HDate d).
  - exact (HOther tag).
Qed.

Lemma keys_dict_set (k : string) (v : pyval) (obj : list (string * pyval)) :
  k ∈ keys obj → keys (dict_set k v obj) = keys obj.
Proof.
  unfold keys. induction obj as [|[k' v'] obj IH]; intros Hin; simpl.
  - by apply elem_of_nil in Hin.
  - destruct (String.eqb_spec k' k) as [->|Hne]; [done|]. simpl. f_equal.
    apply IH. simpl in Hin. apply elem_of_cons in Hin as [->|Hin]; done.
Qed.

Lemma dict_set_fresh (k : string) (v : pyval) (obj : list (string * pyval)) :
  k ∉ keys obj → dict_set k v obj = obj ++ [(k, v)].
Proof.
  unfold keys. induction obj as [|[k' v'] obj IH]; intros Hin; simpl; [done|].
  simpl in Hin. apply not_elem_of_cons in Hin as [Hne Hin].
  destruct (String.eqb_spec k' k) as [->|_]; [done|]. by rewrite IH.
Qed.

(** Setting the key at the head of [todo], past the entries of [seen]. *)
Lemma dict_set_middle (k : string) (v v' : pyval)
    (seen todo : list (string * pyval)) :
  k ∉ keys seen →
  dict_set k v' (seen ++ (k, v) :: todo) = seen ++ (k, v') :: todo.
Proof.
  unfold keys. induction seen as [|[k0 v0] seen IH]; intros Hin; simpl.
  - by rewrite String.eqb_refl.
  - simpl in Hin. apply not_elem_of_cons in Hin as [Hne Hin].
    destruct (String.eqb_spec k0 k) as [->|_]; [done|]. by rewrite IH.
Qed.

Lemma dict_of_pairs_NoDup (pairs : list (string * pyval)) :
  NoDup (keys pairs) → dict_of_pairs pairs = pairs.
Proof.
  unfold dict_of_pairs.
  assert (∀ seen, NoDup (keys (seen ++ pairs)) →
    fold_left (λ obj kv, dict_set kv.1 kv.2 obj) pairs seen = seen ++ pairs)
    as Hgen.
  { induction pairs as [|[k v] pairs IH]; intros seen Hnd; simpl.
    - by rewrite app_nil_r.
    - rewrite dict_set_fresh.
      + rewrite IH; rewrite <- app_assoc; done.
      + unfold keys in *. rewrite fmap_app in Hnd.
        apply NoDup_app in Hnd as (_ & Hdisj & _).
        intros Hin. apply (Hdisj k Hin). simpl. left. }
  intros Hnd. by apply (Hgen []).
Qed.

(** On a record with distinct keys the hook converts field by field. *)
Lemma datetime_json_deserialize_NoDup (obj : list (string * pyval)) :
  NoDup (keys obj) →
  datetime_json_deserialize obj = (λ kv, (kv.1, converted kv.2)) <$> obj.
Proof.
  unfold datetime_json_deserialize.
  assert (∀ seen, NoDup (keys (seen ++ obj)) →
    fold_left
      (λ o fv, match try_fromisoformat fv.2 with
               | Some d => dict_set fv.1 (PyDatetime d) o
               | None => o
               end) obj (seen ++ obj)
    = seen ++ ((λ kv, (kv.1, converted kv.2)) <$> obj)) as Hgen.
  { induction obj as [|[k v] obj IH]; intros seen Hnd; [done|].
    assert (k ∉ keys seen) as Hk.
    { unfold keys in *. rewrite fmap_app in Hnd.
      apply NoDup_app in Hnd as (_ & Hdisj & _).
      intros Hin. apply (Hdisj k Hin). simpl. left. }
    cbn [fold_left fst snd fmap list_fmap]. unfold converted at 1.
    destruct (try_fromisoformat v) as [d|] eqn:Hv.
    - rewrite dict_set_middle by done.
      replace (seen ++ (k, PyDatetime d) :: obj)
        with ((seen ++ [(k, PyDatetime d)]) ++ obj) by by rewrite <- app_assoc.
      rewrite IH; [by rewrite <- app_assoc|].
      rewrite <- app_assoc. simpl. unfold keys in *.
      by rewrite fmap_app in *.
    - replace (seen ++ (k, v) :: obj)
        with ((seen ++ [(k, v)]) ++ obj) by by rewrite <- app_assoc.
      rewrite IH; [by rewrite <- app_assoc|].
      by rewrite <- app_assoc. }
  intros Hnd. by apply (Hgen []).
Qed.

Lemma reread_list (l : list pyval) : reread (PyList l) = PyList (reread <$> l).
Proof. unfold reread. simpl. by rewrite map_map. Qed.

Lemma reread_dict (items : list (string * pyval)) :
  NoDup (keys items) →
  reread (PyDict items)
  = PyDict ((λ kv, (kv.1, converted (reread kv.2))) <$> items).
Proof.
  intros Hnd. unfold reread at 1. simpl. rewrite map_map. simpl.
  assert (keys (map (λ x : string * pyval,
            (x.1, json_load datetime_json_deserialize
                    (json_dump datetime_json_serialize x.2))) items)
          = keys items) as Hkeys.
  { unfold keys. induction items as [|[k v] items IH]; simpl; [done|].
    f_equal. apply IH. by apply NoDup_cons in Hnd as [_ ?]. }
  rewrite dict_of_pairs_NoDup by by rewrite Hkeys.
  rewrite datetime_json_deserialize_NoDup by by rewrite Hkeys.
  f_equal. induction items as [|[k v] items IH]; simpl; [done|].
  f_equal. apply IH.
  - by apply NoDup_cons in Hnd as [_ ?].
  - unfold keys in *. simpl in Hkeys. by injection Hkeys.
Qed.

Lemma stable_list (l : list pyval) :
  stable false (PyList l) ↔ Forall (stable false) l.
Proof.
  induction l as [|x l IH]; simpl; [done|].
  rewrite Forall_cons. simpl in IH. by rewrite IH.
Qed.

Lemma stable_dict (items : list (string * pyval)) (b : bool) :
  stable b (PyDict items)
  ↔ NoDup (keys items) ∧ Forall (λ kv, stable true kv.2) items.
Proof.
  simpl. apply and_iff_compat_l.
  induction items as [|x l IH]; simpl; [done|].
  rewrite Forall_cons. by rewrite IH.
Qed.

(** A stable value comes back as it was: as such where it stands in a
    list, after the hook's conversion where it is a field of a record. *)
Lemma stable_reread (v : pyval) :
  (stable false v → reread v = v)
  ∧ (stable true v → converted (reread v) = v).
Proof.
  induction v as [ | | | |l IH|items IH| | | ] using pyval_nested_ind;
    try (split; done).
  - split; [done|]. simpl. intros Hs. unfold converted, reread. simpl.
    by rewrite Hs.
  - assert (stable false (PyList l) → reread (PyList l) = PyList l) as Hl.
    { intros Hs%stable_list. rewrite reread_list. f_equal.
      induction l as [|x l IHl]; [done|].
      apply Forall_cons in IH as [[Hx _] IH].
      apply Forall_cons in Hs as [Hsx Hs].
      simpl. rewrite Hx by done. f_equal. by apply IHl. }
    split; [done|]. intros Hs. rewrite Hl; [done|]. by destruct l.
  - assert (∀ b, stable b (PyDict items) → reread (PyDict items) = PyDict items)
      as Hd.
    { intros b [Hnd Hs]%stable_dict. rewrite reread_dict by done. f_equal.
      clear Hnd. induction items as [|[k x] items IHl]; [done|].
      apply Forall_cons in IH as [[_ Hx] IH].
      apply Forall_cons in Hs as [Hsx Hs].
      simpl in *. rewrite Hx by done. f_equal. by apply IHl. }
    split; intros Hs; rewrite (Hd _ Hs); done.
  - split; [done|]. simpl. intros Hs. unfold converted, reread. simpl.
    by rewrite Hs.
Qed.

Lemma stable_records_reread (recs : list (list (string * pyval))) :
  Forall (λ r, stable true (PyDict r)) recs →
  reread (records recs) = records recs.
Proof.
  intros Hs. apply stable_reread. unfold records. apply stable_list.
  apply Forall_fmap. eapply Forall_impl; [done|]. simpl.
  intros r Hr. by apply (stable_dict r true), (stable_dict r false) in Hr.
Qed.

End Json.

(** ** The naive datetime instance

    [fromisoformat] recovers every valid naive datetime from its
    [isoformat], microseconds included. *)

Lemma digits_acc_fixed (w : nat) :
  ∀ (fuel : nat) (n : Z) (acc : string),
    (1 ≤ w ≤ fuel)%nat → 0 ≤ n < 10 ^ Z.of_nat w →
    Py.digits_acc fuel w n acc = fixed_acc w n acc.
Proof.
  induction w as [|w IH]; intros fuel n acc Hw Hn; [lia|].
  destruct fuel as [|fuel]; [lia|].
  destruct w as [|w].
  - simpl. replace (n / 10 =? 0) with true; [done|].
    symmetry. apply Z.eqb_eq. apply Z.div_small. simpl in Hn. lia.
  - cbn [Py.digits_acc fixed_acc].
    replace (S (S w) <=? 1)%nat with false by done.
    rewrite andb_false_r.
    replace (S (S w) - 1)%nat with (S w) by lia.
    apply IH; [lia|].
    rewrite Nat2Z.inj_succ, Z.pow_succ_r in Hn by lia.
    split; [apply Z.div_pos; lia|].
    apply Z.div_lt_upper_bound; lia.
Qed.

Lemma format_fixed (w : nat) (n : Z) :
  (1 ≤ w)%nat → 0 ≤ n < 10 ^ Z.of_nat w →
  Py.format_0d w n = fixed_acc w n "".
Proof.
  intros Hw Hn. unfold Py.format_0d, Py.digits.
  replace (n <? 0) with false by (symmetry; apply Z.ltb_ge; lia).
  apply digits_acc_fixed; [lia|done].
Qed.

Lemma digit_val_digit_char (a : Z) :
  Py.digit_val (Py.digit_char (a mod 10)) = Some (a mod 10).
Proof.
  assert (0 ≤ a mod 10 < 10) as Hr by (apply Z.mod_pos_bound; lia).
  destruct (a mod 10) as [|p|p]; [done| |lia].
  do 4 (destruct p as [p|p|]; try done; try lia).
Qed.

Lemma digits2_value (n : Z) :
  0 ≤ n < 100 → 10 * (10 * 0 + (n / 10) mod 10) + n mod 10 = n.
Proof. intros Hn. Z.div_mod_to_equations. lia. Qed.

Lemma digits4_value (n : Z) :
  0 ≤ n < 10000 →
  10 * (10 * (10 * (10 * 0 + (n / 10 / 10 / 10) mod 10) + (n / 10 / 10) mod 10)
        + (n / 10) mod 10) + n mod 10 = n.
Proof. intros Hn. Z.div_mod_to_equations. lia. Qed.

Lemma digits6_value (n : Z) :
  0 ≤ n < 1000000 →
  10 * (10 * (10 * (10 * (10 * (10 * 0 + (n / 10 / 10 / 10 / 10 / 10) mod 10)
                          + (n / 10 / 10 / 10 / 10) mod 10)
                    + (n / 10 / 10 / 10) mod 10)
              + (n / 10 / 10) mod 10)
        + (n / 10) mod 10) + n mod 10 = n.
Proof. intros Hn. Z.div_mod_to_equations. lia. Qed.

Lemma days_in_month_le (y m : Z) : Naive.days_in_month y m ≤ 31.
Proof.
  unfold Naive.days_in_month. repeat case_match; lia.
Qed.

Ltac naive_digits :=
  repeat match goal with
         | |- context [Py.digit_char (?a mod 10)] =>
             let c := fresh "c" in
             let Hc := fresh "Hc" in
             pose proof (digit_val_digit_char a) as Hc;
             set (c := Py.digit_char (a mod 10)) in *; clearbody c
         end;
  cbv beta iota delta [String.append];
  unfold Naive.fromisoformat, Naive.parse_date, Naive.parse_time, Naive.sub,
    Naive.number;
  repeat (progress
            (cbn -[Z.mul Z.add Z.div Z.modulo Z.leb Z.ltb Z.eqb
                   Naive.valid_date Naive.valid_time];
             repeat match goal with
                    | H : Py.digit_val ?c = Some _
                      |- context [Py.digit_val ?c] => rewrite H
                    end)).

Lemma naive_roundtrip (d : Naive.datetime) :
  Naive.valid d = true → Naive.fromisoformat (Naive.isoformat d) = Some d.
Proof.
  destruct d as [y m dd h mi s us]. unfold Naive.valid. simpl.
  intros Hv. pose proof Hv as Hv'.
  apply andb_prop in Hv' as [Hd Ht].
  unfold Naive.valid_date in Hd. unfold Naive.valid_time in Ht.
  repeat (apply andb_prop in Hd as [Hd ?]).
  repeat (apply andb_prop in Ht as [Ht ?]).
  pose proof (days_in_month_le y m).
  repeat match goal with
         | H : (_ <=? _) = true |- _ => apply Z.leb_le in H
         | H : (_ <? _) = true |- _ => apply Z.ltb_lt in H
         end.
  unfold Naive.isoformat. simpl.
  rewrite (format_fixed 4 y), !(format_fixed 2) by (simpl; lia).
  cbn [fixed_acc].
  assert (Naive.valid_date y m dd && Naive.valid_time h mi s us = true) as Hv2
    by exact Hv.
  destruct (us =? 0) eqn:Hus.
  - apply Z.eqb_eq in Hus. subst us.
    naive_digits.
    rewrite (digits4_value y), (digits2_value m), (digits2_value dd),
      (digits2_value h), (digits2_value mi), (digits2_value s) by lia.
    by rewrite Hv2.
  - rewrite (format_fixed 6 us) by (simpl; lia). cbn [fixed_acc].
    naive_digits.
    rewrite (digits4_value y), (digits2_value m), (digits2_value dd),
      (digits2_value h), (digits2_value mi), (digits2_value s),
      (digits6_value us) by lia.
    by rewrite Hv2.
Qed.

(** A valid naive datetime held as a field of a record is stable. *)
Lemma naive_datetime_stable (d : Naive.datetime) :
  Naive.valid d = true → stable true (PyDatetime d : Naive.value).
Proof. apply naive_roundtrip. Qed.

(** ** Write, then read *)

Section WriteRead.
Context {datetime date : Type} `{!DatetimeLib datetime date}.
Local Abbreviation pyval := (@pyval datetime date) (only parsing).

Lemma read_file_insert (path : string) (doc : json) (d : gmap string entry) :
  read_file path (Some (<[path := JsonFile doc]> d)) = Return doc.
Proof. unfold read_file. by rewrite lookup_insert_eq. Qed.

(** On a ready store, [read] after [write data] returns [reread data]. *)
Lemma write_then_read (dn fn : string) (d : gmap string entry) (data : pyval) :
  store_ready (handle dn fn) (Some d) →
  ∃ path,
    (path ∉ dom d)
    ∧ write (handle dn fn) data (Some d)
      = Return (Some (<[path := JsonFile (json_dump datetime_json_serialize data)]> d))
    ∧ read (handle dn fn)
        (Some (<[path := JsonFile (json_dump datetime_json_serialize data)]> d))
      = Return (reread data).
Proof.
  intros Hr.
  destruct (write_ready dn fn d data Hr) as (path & _ & Hfresh & Hw & Hlat & Hne).
  exists path. split; [done|]. split; [done|].
  rewrite (read_latest _ _ path Hlat Hne), read_file_insert. done.
Qed.

End WriteRead.


(** ** Restore *)

Section RestoreProofs.
Context {datetime date : Type} `{!DatetimeLib datetime date}
  `{!TableAccess datetime date}.

Lemma atomic_raise {A : Type} (f : table → result A * table) (t : table)
    (e : pyerr) :
  (atomic f t).1 = Raise e → atomic f t = (Raise e, t).
Proof.
  unfold atomic. destruct (f t) as [[a|e'] t']; simpl; [done|].
  by intros [= ->].
Qed.

Lemma atomic_return {A : Type} (f : table → result A * table) (t : table)
    (a : A) :
  (atomic f t).1 = Return a → atomic f t = f t.
Proof.
  unfold atomic. by destruct (f t) as [[a'|e'] t'].
Qed.

(** What the decorated body does, step by step. *)
Lemma atomic_restore_body (fh : BackupFile) (fs : backup_dir) (t : table) :
  (∀ e, get_migrations_data_from_backup fh fs = Raise e →
        atomic (restore_body fh fs) t = (Raise e, t))
  ∧ (∀ rows e t1,
        get_migrations_data_from_backup fh fs = Return rows →
        delete_all t = (Raise e, t1) →
        atomic (restore_body fh fs) t = (Raise e, t))
  ∧ (∀ rows u e t1 t2,
        get_migrations_data_from_backup fh fs = Return rows →
        delete_all t = (Return u, t1) →
        bulk_create rows t1 = (Raise e, t2) →
        atomic (restore_body fh fs) t = (Raise e, t))
  ∧ (∀ rows u u' t1 t2,
        get_migrations_data_from_backup fh fs = Return rows →
        delete_all t = (Return u, t1) →
        bulk_create rows t1 = (Return u', t2) →
        atomic (restore_body fh fs) t = (Return u', t2)).
Proof.
  unfold atomic, restore_body. repeat split.
  - by intros e ->.
  - by intros rows e t1 -> ->.
  - by intros rows u e t1 t2 -> -> ->.
  - by intros rows u u' t1 t2 -> -> ->.
Qed.

End RestoreProofs.


(** * The claims *)

(** C1, as stated, fails: a string field that parses as an ISO-8601
    datetime is written as a JSON-native string and read back as a
    datetime, so the records read are not the records written. *)
Lemma C1_counterexample :
  let h := handle "migrations" "backup.json" in
  let recs : list (list (string * Naive.value)) :=
    [[("id", PyInt 1); ("applied", PyStr "2024-01-01T00:00:00")]] in
  let fs' : backup_dir :=
    Some {[ "0001_backup.json" :=
              JsonFile (JArr [JObj [("id", JNum 1);
                                    ("applied", JStr "2024-01-01T00:00:00")]]) ]} in
  write h (records recs) (Some ∅) = Return fs'
  ∧ read h fs'
    = Return (records [[("id", PyInt 1);
                        ("applied", PyDatetime (Naive.mk 2024 1 1 0 0 0 0))]])
  ∧ read h fs' ≠ Return (records recs).
Proof.
  split; [vm_compute; reflexivity|]. split; [vm_compute; reflexivity|].
  vm_compute. discriminate.
Qed.

(** C1, amended: on a store whose latest revision, if any, is canonical,
    [write(records)] followed by [read()] returns records equal to the
    input, for records whose fields hold null, booleans, integers, strings
    that do not parse as ISO-8601 datetimes, lists and nested records of
    such values, or datetimes that [fromisoformat] recovers from their
    [isoformat] (sub-second part included). *)
Theorem C1_write_read_roundtrip {datetime date : Type}
    `{!DatetimeLib datetime date} (dn fn : string)
    (d : gmap string entry) (recs : list (list (string * @pyval datetime date))) :
  store_ready (handle dn fn) (Some d) →
  Forall (λ r, stable true (PyDict r)) recs →
  ∃ fs',
    write (handle dn fn) (records recs) (Some d) = Return fs'
    ∧ read (handle dn fn) fs' = Return (records recs).
Proof.
  intros Hr Hs.
  destruct (write_then_read dn fn d (records recs) Hr) as (path & _ & Hw & Hrd).
  eexists. split; [done|]. rewrite Hrd. by rewrite stable_records_reread.
Qed.

(** Two records on an empty store: integers, plain strings, a datetime with
    microseconds, a nested list and a nested record. *)
Lemma C1_write_read_roundtrip_witness :
  let h := handle "migrations" "backup.json" in
  let recs : list (list (string * Naive.value)) :=
    [[("id", PyInt 1); ("app", PyStr "auth"); ("name", PyStr "0001_initial");
      ("applied", PyDatetime (Naive.mk 2024 2 29 23 59 58 123456));
      ("flags", PyList [PyBool true; PyNone; PyStr "2024-01-01T00:00:00"])];
     [("id", PyInt 2); ("meta", PyDict [("note", PyStr "second")])]] in
  ∃ fs',
    write h (records recs) (Some ∅) = Return fs'
    ∧ read h fs' = Return (records recs).
Proof.
  intros h recs. apply (C1_write_read_roundtrip "migrations" "backup.json" ∅ recs).
  - vm_compute. exact I.
  - repeat (apply Forall_cons; split); [..|by apply Forall_nil];
      simpl; repeat split;
      first [ exact I
            | apply (bool_decide_unpack _); vm_compute; exact I
            | vm_compute; reflexivity ].
Defined.

(** C2: whichever step of the restore fails (reading the snapshot,
    deleting all rows, or the bulk insert), the table is afterwards what it
    was before the restore; the delete and the insert take effect only when
    both succeed. This holds for [MigrationRestore.restore] and for
    [MigrationBackup.load] alike. *)
Theorem C2_restore_all_or_nothing {datetime date : Type}
    `{!DatetimeLib datetime date} `{!TableAccess datetime date}
    (r : MigrationRestore) (b : MigrationBackup) (fs : backup_dir)
    (t : table) (e : pyerr) :
  let fh := restore_file_handler r in
  ((restore r fs t).1 = Raise e → (restore r fs t).2 = t)
  ∧ ((load b fs t).1 = Raise e → (load b fs t).2 = t)
  ∧ load b fs t = restore {| restore_file_handler := file_handler b |} fs t
  ∧ (get_migrations_data_from_backup fh fs = Raise e →
     restore r fs t = (Raise e, t))
  ∧ (∀ rows t1,
       get_migrations_data_from_backup fh fs = Return rows →
       delete_all t = (Raise e, t1) →
       restore r fs t = (Raise e, t))
  ∧ (∀ rows u t1 t2,
       get_migrations_data_from_backup fh fs = Return rows →
       delete_all t = (Return u, t1) →
       bulk_create rows t1 = (Raise e, t2) →
       restore r fs t = (Raise e, t))
  ∧ (∀ rows u u' t1 t2,
       get_migrations_data_from_backup fh fs = Return rows →
       delete_all t = (Return u, t1) →
       bulk_create rows t1 = (Return u', t2) →
       restore r fs t = (Return u', t2)).
Proof.
  intros fh. split; [|split; [|split]].
  - intros Hr. unfold restore in *. by rewrite (atomic_raise _ _ _ Hr).
  - intros Hl. unfold load in *. by rewrite (atomic_raise _ _ _ Hl).
  - reflexivity.
  - destruct (atomic_restore_body fh fs t) as (H1 & H2 & H3 & H4).
    unfold restore. fold fh.
    split; [apply H1|]. split; [intros; by eapply H2|].
    split; [intros; by eapply H3|]. intros; by eapply H4.
Qed.

(** A snapshot holding the same [id] twice: the bulk insert fails on the
    second row; the undecorated body leaves the first row alone in the
    table, the restore leaves the table as it was. *)
Lemma C2_restore_all_or_nothing_witness :
  let row1 : list (string * Naive.value) := [("id", PyInt 1); ("app", PyStr "auth")] in
  let row2 : list (string * Naive.value) := [("id", PyInt 1); ("app", PyStr "sites")] in
  let old : list (string * Naive.value) := [("id", PyInt 9); ("app", PyStr "old")] in
  let fs : backup_dir :=
    Some {[ "0001_backup.json" :=
              JsonFile (JArr [JObj [("id", JNum 1); ("app", JStr "auth")];
                              JObj [("id", JNum 1); ("app", JStr "sites")]]) ]} in
  let r := (MigrationRestore_init "migrations" "backup.json" fs).1 in
  (restore r fs [old]).1 = Raise DatabaseError
  ∧ (restore r fs [old]).2 = [old]
  ∧ restore_body (restore_file_handler r) fs [old] = (Raise DatabaseError, [row1]).
Proof.
  intros row1 row2 old fs r.
  assert ((restore r fs [old]).1 = Raise DatabaseError) as Hfail
    by (vm_compute; reflexivity).
  split; [exact Hfail|]. split.
  - exact (proj1 (C2_restore_all_or_nothing r (MigrationBackup_init fs).1 fs
                    [old] DatabaseError) Hfail).
  - vm_compute. reflexivity.
Defined.

(** C3, as stated, fails for N = 10000: the 10000th write to an empty
    directory gets the five-character number 10000, which is not a number
    zero-padded to width 4. *)
Lemma C3_counterexample :
  ∃ paths fs',
    write_all (handle "migrations" "x.json")
      (replicate (Z.to_nat 10000) (PyNone : Naive.value)) (Some ∅)
    = Return (paths, fs')
    ∧ paths !! Z.to_nat 9999 = Some "10000_x.json"
    ∧ Py.format_0d 4 10000 = "10000".
Proof.
  destruct (write_all_numbered "migrations" "x.json"
              (replicate (Z.to_nat 9999) (PyNone : Naive.value)) 0 ∅)
    as (d' & Hall & Hnum & Hdom & _ & _).
  { left. split; [done|]. intros k Hk. by rewrite dom_empty_L in Hk. }
  { done. }
  { rewrite length_replicate. lia. }
  rewrite length_replicate, Z2Nat.id in Hall, Hnum, Hdom by lia.
  assert (new_file_path (handle "migrations" "x.json") (Some d')
          = Return "10000_x.json") as Hp.
  { rewrite (numbered_new_file_path "migrations" "x.json" _ d' Hnum) by lia.
    f_equal. }
  assert ("10000_x.json" ∉ dom d') as Hfresh.
  { intros Hin. rewrite Hdom, dom_empty_L in Hin.
    apply elem_of_union in Hin as [Hin%elem_of_empty|Hin]; [done|].
    apply elem_of_list_to_set, list_elem_of_fmap in Hin as (i & Hi & Hin).
    apply elem_of_seqZ in Hin.
    assert (String.length "10000_x.json" = String.length (revision "x.json" i))
      as Hlen by by rewrite <- Hi.
    unfold revision in Hlen.
    rewrite !string_length_app, format_length in Hlen by lia.
    simpl in Hlen. lia. }
  eexists _, _. split; [|split; [|done]].
  - replace (Z.to_nat 10000) with (Z.to_nat 9999 + 1)%nat by lia.
    rewrite replicate_add, write_all_app. rewrite Hall.
    cbn [mbind result_bind replicate write_all]. rewrite Hp.
    cbn [mbind result_bind]. unfold write. rewrite Hp.
    cbn [mbind result_bind]. rewrite write_file_fresh by done.
    cbn [mbind result_bind mret result_ret]. reflexivity.
  - rewrite lookup_app_r; rewrite length_fmap, length_seqZ; [|lia].
    by rewrite Nat.sub_diag.
Qed.

(** C3, amended: for every N up to 9999, N consecutive writes to an empty
    dataset directory create, in write order, the files numbered 0001,
    0002, ..., each number zero-padded to width 4. *)
Theorem C3_writes_numbered_in_order {datetime date : Type}
    `{!DatetimeLib datetime date} (dn fn : string)
    (datas : list (@pyval datetime date)) :
  Z.of_nat (length datas) ≤ 9999 →
  let names := revision fn <$> seqZ 1 (Z.of_nat (length datas)) in
  ∃ d',
    write_all (handle dn fn) datas (Some ∅) = Return (names, Some d')
    ∧ dom d' = list_to_set names
    ∧ ∀ i : nat, (i < length datas)%nat →
        ∃ number,
          names !! i = Some (number +:+ "_" +:+ fn)
          ∧ String.length number = 4%nat
          ∧ Py.int number = Some (Z.of_nat i + 1).
Proof.
  intros Hlen names.
  destruct (write_all_numbered dn fn datas 0 ∅) as (d' & Hall & _ & Hdom & _ & _).
  { left. split; [done|]. intros k Hk. by rewrite dom_empty_L in Hk. }
  { done. }
  { lia. }
  exists d'. split; [done|]. split.
  - rewrite Hdom, dom_empty_L. apply (left_id_L ∅ (∪)).
  - intros i Hi. exists (Py.format_0d 4 (Z.of_nat i + 1)). split; [|split].
    + unfold names. rewrite list_lookup_fmap.
      rewrite (lookup_seqZ_lt 1 (Z.of_nat (length datas)) i) by lia.
      simpl. unfold revision. do 3 f_equal. lia.
    + apply format_length. lia.
    + apply int_format. lia.
Qed.

(** Three writes to an empty directory. *)
Lemma C3_writes_numbered_in_order_witness :
  ∃ d',
    write_all (handle "migrations" "x.json")
      [PyNone : Naive.value; PyInt 1; PyList []] (Some ∅)
    = Return (["0001_x.json"; "0002_x.json"; "0003_x.json"], Some d')
    ∧ dom d' = list_to_set ["0001_x.json"; "0002_x.json"; "0003_x.json"]
    ∧ ∀ i : nat, (i < 3)%nat →
        ∃ number,
          ["0001_x.json"; "0002_x.json"; "0003_x.json"] !! i
          = Some (number +:+ "_" +:+ "x.json")
          ∧ String.length number = 4%nat
          ∧ Py.int number = Some (Z.of_nat i + 1).
Proof.
  apply (@C3_writes_numbered_in_order _ _ Naive.lib "migrations" "x.json"
           [PyNone : Naive.value; PyInt 1; PyList []]).
  simpl. lia.
Defined.

(** C4, as stated, fails in two ways. After the revision counter has
    passed 9999 the latest revision is still taken to be 9999, so the next
    write goes to the existing file of revision 10000 and overwrites it,
    creating no new file. And when the greatest matching entry does not
    start with a number, the write raises and creates no file. *)
Lemma C4_counterexample :
  let x := handle "migrations" "x.json" in
  let d : gmap string entry :=
    {[ "9999_x.json" := JsonFile (JNum 1); "10000_x.json" := JsonFile (JNum 2) ]} in
  let d' : gmap string entry :=
    {[ "9999_x.json" := JsonFile (JNum 1); "10000_x.json" := JsonFile (JNum 3) ]} in
  (new_file_path x (Some d) = Return "10000_x.json"
   ∧ "10000_x.json" ∈ dom d
   ∧ write x (PyInt 3 : Naive.value) (Some d) = Return (Some d')
   ∧ dom d' = dom d
   ∧ d !! "10000_x.json" = Some (JsonFile (JNum 2))
   ∧ d' !! "10000_x.json" = Some (JsonFile (JNum 3)))
  ∧ write (handle "migrations" "backup.json") (PyInt 3 : Naive.value)
      (Some {[ "backup.json" := JsonFile JNull ]})
    = Raise ValueError.
Proof.
  split.
  - split; [vm_compute; reflexivity|].
    split; [apply (bool_decide_unpack _); vm_compute; exact I|].
    split; [vm_compute; reflexivity|].
    split; [apply (bool_decide_unpack _); vm_compute; exact I|].
    split; vm_compute; reflexivity.
  - vm_compute. reflexivity.
Qed.

(** C4, amended: when no entry ends with the dataset's file name, or the
    lexicographically greatest such entry starts with the four-digit
    decimal of a number below 9999 and holds the whole file name after it,
    one [write] creates exactly one new file, at a path that was not in
    the directory, and leaves every existing entry as it was. *)
Theorem C4_write_creates_one_new_file {datetime date : Type}
    `{!DatetimeLib datetime date} (dn fn : string)
    (d : gmap string entry) (data : @pyval datetime date) :
  store_ready (handle dn fn) (Some d) →
  ∃ path d',
    new_file_path (handle dn fn) (Some d) = Return path
    ∧ write (handle dn fn) data (Some d) = Return (Some d')
    ∧ (path ∉ dom d)
    ∧ dom d' = {[path]} ∪ dom d
    ∧ d' !! path = Some (JsonFile (json_dump datetime_json_serialize data))
    ∧ ∀ k, k ∈ dom d → d' !! k = d !! k.
Proof.
  intros Hr.
  destruct (write_ready dn fn d data Hr) as (path & Hp & Hfresh & Hw & _).
  eexists path, _. split; [done|]. split; [done|]. split; [done|].
  split; [|split].
  - by rewrite dom_insert_L.
  - by rewrite lookup_insert_eq.
  - intros k Hk. apply lookup_insert_ne. by intros <-.
Qed.

(** A directory holding revision 0007 and a foreign file. *)
Lemma C4_write_creates_one_new_file_witness :
  let d : gmap string entry :=
    {[ "0007_x.json" := JsonFile JNull; "notes.txt" := OtherFile ]} in
  ∃ path d',
    new_file_path (handle "migrations" "x.json") (Some d) = Return path
    ∧ write (handle "migrations" "x.json") (PyInt 3 : Naive.value) (Some d)
      = Return (Some d')
    ∧ (path ∉ dom d)
    ∧ dom d' = {[path]} ∪ dom d
    ∧ d' !! path
      = Some (JsonFile (json_dump datetime_json_serialize (PyInt 3 : Naive.value)))
    ∧ ∀ k, k ∈ dom d → d' !! k = d !! k.
Proof.
  intros d.
  apply (C4_write_creates_one_new_file "migrations" "x.json" d
           (PyInt 3 : Naive.value)).
  vm_compute. exact I.
Defined.

(** C5: the next revision is determined by the entries ending with the
    dataset's file name alone; with none it is ["0001_<name>"]; otherwise
    it is the lexicographically greatest of them with the number in its
    first characters incremented by one and zero-padded again to the same
    width, the rest of the entry kept as it is. Zero-padding is that of
    ["%04d"]: the new number has the same four characters as long as it is
    below 10000. *)
Theorem C5_next_revision (self : BackupFile) (d d' : gmap string entry)
    (m : string) (n : Z) :
  ((∀ k, Py.endswith k (file_name self) → k ∈ dom d ↔ k ∈ dom d') →
   next_revision self (Some d) = next_revision self (Some d'))
  ∧ (no_revision self d →
     next_revision self (Some d) = Return ("0001" +:+ "_" +:+ file_name self))
  ∧ (is_latest self d m → m ≠ "" →
     Py.int (Py.slice_to (revision_num_len self) m) = Some n →
     next_revision self (Some d)
     = Return (Py.format_0d (revision_num_len self) (n + 1)
               +:+ Py.slice_from (revision_num_len self) m))
  ∧ (revision_num_len self = 4%nat → 0 ≤ n < 9999 →
     String.length (Py.format_0d (revision_num_len self) (n + 1))
     = revision_num_len self).
Proof.
  split; [|split; [|split]].
  - apply next_revision_only_matching.
  - apply next_revision_first.
  - apply next_revision_increment.
  - intros -> Hn. apply format_length. lia.
Qed.

(** Revisions 0003 and 0007 next to a foreign file: the foreign file and
    the contents play no role, and the next revision is 0008. *)
Lemma C5_next_revision_witness :
  let x := handle "migrations" "x.json" in
  let d : gmap string entry :=
    {[ "0007_x.json" := JsonFile JNull; "0003_x.json" := JsonFile JNull;
       "9999_notes.txt" := OtherFile ]} in
  let d' : gmap string entry :=
    {[ "0007_x.json" := OtherFile; "0003_x.json" := SubDir ]} in
  next_revision x (Some d) = next_revision x (Some d')
  ∧ next_revision x (Some {[ "9999_notes.txt" := OtherFile ]})
    = Return "0001_x.json"
  ∧ next_revision x (Some d) = Return "0008_x.json"
  ∧ String.length (Py.format_0d (revision_num_len x) (7 + 1)) = revision_num_len x.
Proof.
  intros x d d'.
  assert (is_latest x d "0007_x.json") as Hlatest.
  { split; [apply (bool_decide_unpack _); vm_compute; exact I|].
    split; [vm_compute; exact I|].
    intros k Hk Hend. unfold d in Hk.
    rewrite !dom_insert_L, dom_singleton_L in Hk.
    repeat (apply elem_of_union in Hk as [Hk|Hk];
            [apply elem_of_singleton in Hk as ->; vm_compute; exact I|]).
    apply elem_of_singleton in Hk as ->. by vm_compute in Hend. }
  split; [|split; [|split]].
  - apply (proj1 (C5_next_revision x d d' "0007_x.json" 7)).
    intros k Hk. unfold d, d'. rewrite !dom_insert_L, !dom_singleton_L.
    split; intros Hin;
      repeat (apply elem_of_union in Hin as [Hin|Hin];
              [apply elem_of_singleton in Hin as ->|]);
      try (apply elem_of_singleton in Hin as ->);
      try (by vm_compute in Hk); set_solver.
  - apply (proj1 (proj2 (C5_next_revision x {[ "9999_notes.txt" := OtherFile ]}
                           ∅ "" 0))).
    intros k Hk Hend. rewrite dom_singleton_L in Hk.
    apply elem_of_singleton in Hk as ->. by vm_compute in Hend.
  - apply (proj1 (proj2 (proj2 (C5_next_revision x d d' "0007_x.json" 7))));
      [done|done|reflexivity].
  - apply (proj2 (proj2 (proj2 (C5_next_revision x d d' "0007_x.json" 7))));
      [reflexivity|lia].
Defined.

(** C6: when no entry ends with the dataset's file name, [read] resolves
    its path to the next revision ["0001_<name>"], which is not in the
    directory, and raises a not-found error. *)
Theorem C6_read_without_revision {datetime date : Type}
    `{!DatetimeLib datetime date} (self : BackupFile) (d : gmap string entry) :
  no_revision self d →
  latest_file_path self (Some d) = Return ("0001" +:+ "_" +:+ file_name self)
  ∧ (("0001" +:+ "_" +:+ file_name self) ∉ dom d)
  ∧ read (datetime := datetime) (date := date) self (Some d)
    = Raise FileNotFoundError.
Proof.
  intros Hno.
  assert (latest_file_path self (Some d)
          = Return ("0001" +:+ "_" +:+ file_name self)) as Hp.
  { unfold latest_file_path, new_file_path.
    rewrite latest_revision_None by done. simpl.
    by rewrite next_revision_first. }
  assert (("0001" +:+ "_" +:+ file_name self) ∉ dom d) as Hfresh.
  { intros Hin. apply (Hno _ Hin). apply (revision_endswith _ 1). }
  split; [done|]. split; [done|].
  unfold read. rewrite Hp. simpl.
  apply not_elem_of_dom in Hfresh. by rewrite Hfresh.
Qed.

(** A directory holding only a foreign file. *)
Lemma C6_read_without_revision_witness :
  let x := handle "migrations" "x.json" in
  let d : gmap string entry := {[ "notes.txt" := OtherFile ]} in
  latest_file_path x (Some d) = Return "0001_x.json"
  ∧ ("0001_x.json" ∉ dom d)
  ∧ read (datetime := Naive.datetime) (date := Naive.date) x (Some d)
    = Raise FileNotFoundError.
Proof.
  intros x d. apply (C6_read_without_revision x d).
  intros k Hk Hend. unfold d in Hk. rewrite dom_singleton_L in Hk.
  apply elem_of_singleton in Hk as ->. by vm_compute in Hend.
Defined.

(** C7: [read] parses the entry whose name is the lexicographically
    greatest among those ending with the dataset's file name; after two
    writes to an empty directory, which create the revisions 0001 and
    0002, it returns the contents of revision 0002. *)
Theorem C7_read_returns_latest {datetime date : Type}
    `{!DatetimeLib datetime date} (self : BackupFile) (d : gmap string entry)
    (m dn fn : string) (data1 data2 : @pyval datetime date) :
  (is_latest self d m → m ≠ "" →
   read self (Some d)
   = doc ← read_file m (Some d);
     Return (json_load datetime_json_deserialize doc))
  ∧ (let d1 : gmap string entry :=
       {[ revision fn 1 := JsonFile (json_dump datetime_json_serialize data1) ]} in
     let d2 : gmap string entry :=
       <[ revision fn 2 := JsonFile (json_dump datetime_json_serialize data2) ]> d1 in
     write (handle dn fn) data1 (Some ∅) = Return (Some d1)
     ∧ write (handle dn fn) data2 (Some d1) = Return (Some d2)
     ∧ read_file (revision fn 2) (Some d2)
       = Return (json_dump datetime_json_serialize data2)
     ∧ read (handle dn fn) (Some d2)
       = Return (json_load datetime_json_deserialize
                   (json_dump datetime_json_serialize data2))).
Proof.
  split; [apply read_latest|].
  intros d1 d2.
  assert (numbered dn fn 0 ∅) as H0.
  { left. split; [done|]. intros k Hk. by rewrite dom_empty_L in Hk. }
  destruct (write_numbered dn fn 0 ∅ data1 H0) as (_ & Hw1 & H1); [lia|].
  destruct (write_numbered dn fn 1 _ data2 H1) as (_ & Hw2 & H2); [lia|].
  destruct H2 as [[? _]|[_ Hlat]]; [lia|].
  split; [exact Hw1|]. split; [exact Hw2|]. split.
  - apply read_file_insert.
  - rewrite (read_latest _ _ _ Hlat (revision_ne_empty fn 2)).
    unfold d2. by rewrite read_file_insert.
Qed.

(** A directory holding revisions 0001 and 0002. *)
Lemma C7_read_returns_latest_witness :
  let x := handle "migrations" "x.json" in
  let d : gmap string entry :=
    {[ "0001_x.json" := JsonFile (JArr []);
       "0002_x.json" := JsonFile (JArr [JObj [("id", JNum 2)]]) ]} in
  read x (Some d) = Return (PyList [PyDict [("id", PyInt 2)]] : Naive.value).
Proof.
  intros x d.
  assert (is_latest x d "0002_x.json") as Hlatest.
  { split; [apply (bool_decide_unpack _); vm_compute; exact I|].
    split; [vm_compute; exact I|].
    intros k Hk _. unfold d in Hk.
    rewrite !dom_insert_L, dom_singleton_L in Hk.
    apply elem_of_union in Hk as [Hk|Hk];
      apply elem_of_singleton in Hk as ->; vm_compute; exact I. }
  rewrite (proj1 (C7_read_returns_latest x d "0002_x.json" "migrations" "x.json"
                    PyNone PyNone) Hlatest); [|done].
  vm_compute. reflexivity.
Defined.

(** C8: a field written as a plain string comes back from [read] as a
    datetime when [fromisoformat] parses the string, and unchanged when the
    parse fails. *)
Theorem C8_iso_string_read_as_datetime {datetime date : Type}
    `{!DatetimeLib datetime date} (dn fn : string)
    (d : gmap string entry) (recs : list (list (string * @pyval datetime date))) :
  store_ready (handle dn fn) (Some d) →
  Forall (λ r, NoDup (keys r)) recs →
  ∃ fs' out,
    write (handle dn fn) (records recs) (Some d) = Return fs'
    ∧ read (handle dn fn) fs' = Return (records out)
    ∧ ∀ (i j : nat) r k s,
        recs !! i = Some r → r !! j = Some (k, PyStr s) →
        ∃ r', out !! i = Some r'
              ∧ r' !! j = Some (k, match fromisoformat s with
                                   | Some dt => PyDatetime dt
                                   | None => PyStr s
                                   end).
Proof.
  intros Hr Hnd.
  destruct (write_then_read dn fn d (records recs) Hr) as (path & _ & Hw & Hrd).
  exists (Some (<[path := JsonFile (json_dump datetime_json_serialize (records recs))]> d)),
    ((λ r : list (string * @pyval datetime date),
        (λ kv : string * @pyval datetime date, (kv.1, converted (reread kv.2))) <$> r) <$> recs).
  split; [done|]. split.
  - rewrite Hrd. unfold records. rewrite reread_list. do 2 f_equal.
    rewrite <- !list_fmap_compose.
    apply Forall_fmap_ext_1. eapply Forall_impl; [done|].
    intros r Hr'. simpl. by apply reread_dict.
  - intros i j r k s Hi Hj.
    exists ((λ kv : string * @pyval datetime date, (kv.1, converted (reread kv.2))) <$> r).
    split.
    + by rewrite list_lookup_fmap, Hi.
    + by rewrite list_lookup_fmap, Hj.
Qed.

(** A record with an ISO-formatted string and a plain one. *)
Lemma C8_iso_string_read_as_datetime_witness :
  let h := handle "migrations" "backup.json" in
  let recs : list (list (string * Naive.value)) := [[("id", PyInt 1); ("applied", PyStr "2024-01-01T00:00:00");
                ("name", PyStr "0001_initial")]] in
  ∃ fs' out,
    write h (records recs) (Some ∅) = Return fs'
    ∧ read h fs' = Return (records out)
    ∧ ∀ (i j : nat) r k s,
        recs !! i = Some r → r !! j = Some (k, PyStr s) →
        ∃ r', out !! i = Some r'
              ∧ r' !! j = Some (k, match fromisoformat s with
                                   | Some dt => PyDatetime dt
                                   | None => PyStr s
                                   end).
Proof.
  intros h recs.
  apply (C8_iso_string_read_as_datetime "migrations" "backup.json" ∅ recs).
  - vm_compute. exact I.
  - repeat (apply Forall_cons; split); [|by apply Forall_nil].
    apply (bool_decide_unpack _); vm_compute; exact I.
Defined.

(** C9, as stated, fails: [write] does not create a missing backup
    directory; with the directory absent both [write] and [read] raise a
    not-found error. *)
Lemma C9_counterexample :
  let x := handle "migrations" "x.json" in
  write x (PyList [] : Naive.value) None = Raise FileNotFoundError
  ∧ read (datetime := Naive.datetime) (date := Naive.date) x None
    = Raise FileNotFoundError.
Proof. split; reflexivity. Qed.

(** C9, amended: a missing backup directory is never an error for the
    constructor, which creates it if absent (an existing directory is left
    as it is), so the directory exists before the first write; [write] and
    [read] do not create it and raise a not-found error when it is absent
    at the time they run. *)
Theorem C9_directory_created_by_constructor {datetime date : Type}
    `{!DatetimeLib datetime date} (dn fn : string) (fs : backup_dir)
    (data : @pyval datetime date) :
  (init dn fn fs).2 = Some (default ∅ fs)
  ∧ (∃ fs', write (init dn fn None).1 data (init dn fn None).2 = Return fs')
  ∧ write (init dn fn fs).1 data None = Raise FileNotFoundError
  ∧ read (datetime := datetime) (date := date) (init dn fn fs).1 None
    = Raise FileNotFoundError.
Proof.
  split; [by destruct fs|]. split; [|done].
  destruct (write_ready dn fn ∅ data) as (path & _ & _ & Hw & _).
  - unfold store_ready. rewrite latest_revision_None; [done|].
    intros k Hk. by rewrite dom_empty_L in Hk.
  - eexists. exact Hw.
Qed.

(** C10: for a value that is neither JSON-native nor a datetime or date,
    the serialisation fallback returns [None] instead of raising, the value
    is encoded as JSON null, and the write succeeds with null stored in
    place of the value. *)
Theorem C10_unsupported_value_written_as_null {datetime date : Type}
    `{!DatetimeLib datetime date} (dn fn : string)
    (d : gmap string entry) (recs : list (list (string * @pyval datetime date)))
    (i j : nat) (r : list (string * @pyval datetime date)) (k : string) (tag : nat) :
  store_ready (handle dn fn) (Some d) →
  recs !! i = Some r → r !! j = Some (k, PyOther tag) →
  datetime_json_serialize (PyOther tag) = None
  ∧ json_dump datetime_json_serialize (PyOther tag) = JNull
  ∧ ∃ path docs m,
      write (handle dn fn) (records recs) (Some d)
      = Return (Some (<[path := JsonFile (JArr (JObj <$> docs))]> d))
      ∧ docs !! i = Some m
      ∧ m !! j = Some (k, JNull).
Proof.
  intros Hr Hi Hj. split; [done|]. split; [done|].
  destruct (write_ready dn fn d (records recs) Hr) as (path & _ & _ & Hw & _).
  exists path,
    ((λ r : list (string * @pyval datetime date),
        (λ kv : string * @pyval datetime date,
           (kv.1, json_dump datetime_json_serialize kv.2)) <$> r) <$> recs),
    ((λ kv : string * @pyval datetime date,
        (kv.1, json_dump datetime_json_serialize kv.2)) <$> r).
  split; [|split].
  - rewrite Hw. do 4 f_equal. unfold records. simpl.
    rewrite <- !list_fmap_compose. done.
  - by rewrite list_lookup_fmap, Hi.
  - by rewrite list_lookup_fmap, Hj.
Qed.

(** A record holding one unsupported value. *)
Lemma C10_unsupported_value_written_as_null_witness :
  let recs : list (list (string * Naive.value)) := [[("id", PyInt 1); ("checksum", PyOther 0)]] in
  datetime_json_serialize (PyOther 0) = None
  ∧ json_dump datetime_json_serialize (PyOther 0) = JNull
  ∧ ∃ path docs m,
      write (handle "migrations" "backup.json") (records recs) (Some ∅)
      = Return (Some (<[path := JsonFile (JArr (JObj <$> docs))]> ∅))
      ∧ docs !! 0%nat = Some m
      ∧ m !! 1%nat = Some ("checksum", JNull).
Proof.
  intros recs.
  apply (@C10_unsupported_value_written_as_null _ _ Naive.lib
           "migrations" "backup.json" ∅ recs 0%nat 1%nat
           [("id", PyInt 1); ("checksum", PyOther 0)] "checksum" 0%nat).
  - vm_compute. exact I.
  - reflexivity.
  - reflexivity.
Defined.

(** * Further properties of the code *)

(** ** The revision computation *)

(** X1: [latest_revision] returns [None] exactly when no entry of the
    directory ends with the file name, and otherwise exactly the entry that
    ends with it and is lexicographically greatest among those that do. *)
Theorem X1_latest_revision_spec (self : BackupFile) (d : gmap string entry)
    (m : string) :
  (latest_revision self (Some d) = Return (Some m) ↔ is_latest self d m)
  ∧ (latest_revision self (Some d) = Return None ↔ no_revision self d).
Proof.
  split; split.
  - intros Hl. destruct (latest_revision_cases self d) as [Hno|[m' Hm']].
    + by rewrite (latest_revision_None _ _ Hno) in Hl.
    + rewrite (latest_revision_Some _ _ _ Hm') in Hl. by injection Hl as <-.
  - apply latest_revision_Some.
  - intros Hl. destruct (latest_revision_cases self d) as [Hno|[m' Hm']]; [done|].
    by rewrite (latest_revision_Some _ _ _ Hm') in Hl.
  - apply latest_revision_None.
Qed.

(** X2: on an existing directory [next_revision] raises nothing but
    [ValueError], and raises it exactly when the greatest matching entry is
    not empty and its first characters are not an integer literal. *)
Theorem X2_next_revision_raises (self : BackupFile) (d : gmap string entry)
    (e : pyerr) :
  next_revision self (Some d) = Raise e
  ↔ e = ValueError
    ∧ ∃ m, is_latest self d m ∧ m ≠ ""
           ∧ Py.int (Py.slice_to (revision_num_len self) m) = None.
Proof.
  split.
  - intros Hn. destruct (latest_revision_cases self d) as [Hno|[m Hm]].
    + by rewrite (next_revision_first _ _ Hno) in Hn.
    + destruct (decide (m = "")) as [->|Hne].
      { unfold next_revision in Hn.
        by rewrite (latest_revision_Some _ _ _ Hm) in Hn. }
      destruct (Py.int (Py.slice_to (revision_num_len self) m)) as [n|] eqn:Hint.
      * by rewrite (next_revision_increment _ _ _ _ Hm Hne Hint) in Hn.
      * rewrite (next_revision_invalid _ _ _ Hm Hne Hint) in Hn.
        injection Hn as <-. split; [done|]. by exists m.
  - intros [-> (m & Hm & Hne & Hint)]. by apply (next_revision_invalid _ _ m).
Qed.

(** X3: [make_next_revision_number] raises [TypeError] exactly when no
    entry ends with the file name (it slices [None]), raises [ValueError]
    exactly when the first characters of the greatest matching entry are
    not an integer literal, and otherwise returns that integer plus one,
    formatted with ["%0<len>d"]. *)
Theorem X3_make_next_revision_number_outcomes (self : BackupFile)
    (d : gmap string entry) (s : string) :
  (make_next_revision_number self (Some d) = Raise TypeError
   ↔ no_revision self d)
  ∧ (make_next_revision_number self (Some d) = Raise ValueError
     ↔ ∃ m, is_latest self d m
            ∧ Py.int (Py.slice_to (revision_num_len self) m) = None)
  ∧ (make_next_revision_number self (Some d) = Return s
     ↔ ∃ m n, is_latest self d m
              ∧ Py.int (Py.slice_to (revision_num_len self) m) = Some n
              ∧ s = Py.format_0d (revision_num_len self) (n + 1)).
Proof.
  unfold make_next_revision_number.
  destruct (latest_revision_cases self d) as [Hno|[m Hm]].
  - rewrite (latest_revision_None _ _ Hno). simpl.
    split; [done|]. split; (split; [done|]).
    + intros (m & (Hin & Hend & _) & _). by destruct (Hno m Hin).
    + intros (m & n & (Hin & Hend & _) & _). by destruct (Hno m Hin).
  - rewrite (latest_revision_Some _ _ _ Hm). simpl.
    assert (¬ no_revision self d) as Hsome.
    { intros Hno. destruct Hm as (Hin & Hend & _). by destruct (Hno m Hin). }
    destruct (Py.int (Py.slice_to (revision_num_len self) m)) as [n|] eqn:Hint.
    + split; [done|]. split; split.
      * done.
      * intros (m' & Hm' & Hint'). rewrite (is_latest_unique _ _ _ _ Hm' Hm) in Hint'.
        congruence.
      * intros [= <-]. by exists m, n.
      * intros (m' & n' & Hm' & Hint' & ->).
        rewrite (is_latest_unique _ _ _ _ Hm' Hm) in Hint'. congruence.
    + split; [done|]. split; split.
      * intros _. by exists m.
      * done.
      * done.
      * intros (m' & n' & Hm' & Hint' & _).
        rewrite (is_latest_unique _ _ _ _ Hm' Hm) in Hint'. congruence.
Qed.

(** ** Writing *)

Section WriteFrame.
Context {datetime date : Type} `{!DatetimeLib datetime date}.
Local Abbreviation pyval := (@pyval datetime date) (only parsing).


(** X5: on an existing directory [write] raises only in two ways:
    [ValueError], exactly when the first characters of the greatest
    matching entry are not an integer literal, and [IsADirectoryError],
    exactly when the path of the next revision is a directory. *)
Theorem X5_write_raises (self : BackupFile) (d : gmap string entry)
    (data : pyval) (e : pyerr) :
  write self data (Some d) = Raise e
  ↔ (e = ValueError
     ∧ ∃ m, is_latest self d m ∧ m ≠ ""
            ∧ Py.int (Py.slice_to (revision_num_len self) m) = None)
    ∨ (e = IsADirectoryError
       ∧ ∃ path, new_file_path self (Some d) = Return path
                 ∧ d !! path = Some SubDir).
Proof.
  unfold write, new_file_path.
  destruct (next_revision self (Some d)) as [path|e'] eqn:Hn; simpl.
  - split.
    + intros Hw. right.
      destruct (d !! path) as [[]|] eqn:Hl; try done.
      injection Hw as <-. split; [done|]. by exists path.
    + intros [(-> & m & Hm & Hne & Hint)|(-> & path' & [= <-] & Hl)].
      * by rewrite (next_revision_invalid _ _ _ Hm Hne Hint) in Hn.
      * by rewrite Hl.
  - split.
    + intros [= <-]. left.
      destruct (latest_revision_cases self d) as [Hno|[m Hm]].
      { by rewrite (next_revision_first _ _ Hno) in Hn. }
      destruct (decide (m = "")) as [->|Hne].
      { unfold next_revision in Hn.
        by rewrite (latest_revision_Some _ _ _ Hm) in Hn. }
      destruct (Py.int (Py.slice_to (revision_num_len self) m)) as [n|] eqn:Hint.
      { by rewrite (next_revision_increment _ _ _ _ Hm Hne Hint) in Hn. }
      rewrite (next_revision_invalid _ _ _ Hm Hne Hint) in Hn.
      injection Hn as <-. split; [done|]. by exists m.
    + intros [(-> & m & Hm & Hne & Hint)|(-> & path' & Hp & _)]; [|done].
      rewrite (next_revision_invalid _ _ _ Hm Hne Hint) in Hn. by injection Hn as <-.
Qed.

(** No entry ending with the file name is above the empty string, so an
    empty latest entry is the only matching one. *)
Lemma is_latest_empty (self : BackupFile) (d : gmap string entry) (k : string) :
  is_latest self d "" → k ∈ dom d → Py.endswith k (file_name self) → k = "".
Proof.
  intros (_ & _ & Hmax) Hk Hend. specialize (Hmax k Hk Hend).
  destruct k as [|c k]; [done|]. by vm_compute in Hmax.
Qed.

(** The path [read] opens: the greatest matching entry, or the first
    revision, which is then not in the directory. *)
Lemma latest_file_path_cases (self : BackupFile) (d : gmap string entry) :
  (∃ m, is_latest self d m ∧ m ≠ ""
        ∧ latest_file_path self (Some d) = Return m)
  ∨ ((∀ m, is_latest self d m → m = "")
     ∧ ∃ p, latest_file_path self (Some d) = Return p ∧ (p ∉ dom d)
            ∧ Py.endswith p (file_name self)).
Proof.
  unfold latest_file_path, new_file_path.
  destruct (latest_revision_cases self d) as [Hno|[m Hm]].
  - right. split.
    { intros m (Hin & Hend & _). by destruct (Hno m Hin). }
    rewrite (latest_revision_None _ _ Hno). simpl.
    rewrite (next_revision_first _ _ Hno). eexists. split; [done|].
    split; [|apply (revision_endswith _ 1)].
    intros Hin. apply (Hno _ Hin). apply (revision_endswith _ 1).
  - destruct (decide (m = "")) as [->|Hne].
    + right. split.
      { intros m' Hm'. by apply (is_latest_unique self d). }
      rewrite (latest_revision_Some _ _ _ Hm). simpl.
      unfold next_revision. rewrite (latest_revision_Some _ _ _ Hm). simpl.
      eexists. split; [done|].
      split; [|apply (revision_endswith _ 1)].
      intros Hin.
      by pose proof (is_latest_empty _ _ _ Hm Hin (revision_endswith _ 1)).
    + left. exists m. split; [done|]. split; [done|].
      rewrite (latest_revision_Some _ _ _ Hm). simpl. by destruct m.
Qed.

(** X6: on an existing directory [read] returns exactly the parsed
    contents of the greatest entry ending with the file name, when that
    entry is a JSON file; it raises a not-found error when there is no
    such entry, [IsADirectoryError] when the entry is a directory and a
    JSON decode error when it is a file that is not JSON; it raises
    nothing else: an entry whose first characters are not a number, on
    which [write] raises, is read like any other. *)
Theorem X6_read_outcomes (self : BackupFile) (d : gmap string entry)
    (v : pyval) (e : pyerr) :
  (read self (Some d) = Return v
   ↔ ∃ m doc, is_latest self d m ∧ m ≠ "" ∧ d !! m = Some (JsonFile doc)
              ∧ v = json_load datetime_json_deserialize doc)
  ∧ (read self (Some d) = Raise e
     ↔ (e = FileNotFoundError ∧ ∀ m, is_latest self d m → m = "")
       ∨ ∃ m, is_latest self d m ∧ m ≠ ""
              ∧ ((e = IsADirectoryError ∧ d !! m = Some SubDir)
                 ∨ (e = JSONDecodeError ∧ d !! m = Some OtherFile))).
Proof.
  unfold read.
  destruct (latest_file_path_cases self d)
    as [(m & Hm & Hne & ->)|(Hnone & p & -> & Hp & _)]; simpl.
  - assert (∀ m', is_latest self d m' → m' = m) as Huniq.
    { intros m' Hm'. by apply (is_latest_unique self d). }
    destruct Hm as (Hin & Hm). apply elem_of_dom in Hin as [x Hx].
    rewrite Hx. pose proof (conj (proj2 (elem_of_dom d m) (ex_intro _ x Hx)) Hm) as Hm'.
    split; split.
    + destruct x as [doc| |]; simpl; try done.
      intros [= <-]. by exists m, doc.
    + intros (m' & doc & Hl & _ & Hd & ->). rewrite (Huniq _ Hl) in Hd.
      rewrite Hx in Hd. by injection Hd as ->.
    + destruct x as [doc| |]; simpl; try done; intros [= <-]; right; exists m;
        (split; [done|]); (split; [done|]); [by right|by left].
    + intros [(-> & Hall)|(m' & Hl & _ & [(-> & Hd)|(-> & Hd)])].
      * by destruct (Hne (Hall m Hm')).
      * rewrite (Huniq _ Hl) in Hd. rewrite Hx in Hd. by injection Hd as ->.
      * rewrite (Huniq _ Hl) in Hd. rewrite Hx in Hd. by injection Hd as ->.
  - apply not_elem_of_dom in Hp. rewrite Hp. simpl. split; split.
    + done.
    + intros (m & doc & Hl & Hne & _). by destruct (Hne (Hnone m Hl)).
    + intros [= <-]. by left.
    + intros [(-> & _)|(m & Hl & Hne & _)]; [done|].
      by destruct (Hne (Hnone m Hl)).
Qed.

(** X7: once revision 9999 is the latest one, the numbering is stuck. The
    next revision is the five-digit ["10000_<name>"], which sorts below
    ["9999_<name>"]: after the write revision 9999 is still the latest
    one, [read] returns what it returned before the write, and the next
    write goes to the same path again. *)
Theorem X7_numbering_stuck_after_9999 (dn fn : string)
    (d : gmap string entry) (data : pyval) :
  is_latest (handle dn fn) d (revision fn 9999) →
  d !! ("10000_" +:+ fn) ≠ Some SubDir →
  let d' := <["10000_" +:+ fn := JsonFile (json_dump datetime_json_serialize data)]> d in
  write (handle dn fn) data (Some d) = Return (Some d')
  ∧ is_latest (handle dn fn) d' (revision fn 9999)
  ∧ read (handle dn fn) (Some d') = read (handle dn fn) (Some d)
  ∧ new_file_path (handle dn fn) (Some d') = Return ("10000_" +:+ fn).
Proof.
  intros Hm Hnd d'.
  assert (revision fn 10000 = "10000_" +:+ fn) as Hrev by done.
  assert (String.ltb ("10000_" +:+ fn) (revision fn 9999) = true) as Hlt by done.
  assert (new_file_path (handle dn fn) (Some d) = Return ("10000_" +:+ fn)) as Hp.
  { rewrite <- Hrev.
    apply (numbered_new_file_path dn fn 9999 d); [|lia]. right. split; [lia|done]. }
  assert (is_latest (handle dn fn) d' (revision fn 9999)) as Hm'.
  { destruct Hm as (Hin & Hend & Hmax). split; [|split; [done|]].
    - unfold d'. rewrite dom_insert_L. set_solver.
    - intros k Hk Hkend. unfold d' in Hk. rewrite dom_insert_L in Hk.
      apply elem_of_union in Hk as [Hk|Hk]; [|by apply Hmax].
      apply elem_of_singleton in Hk as ->. by apply string_ltb_le. }
  split; [|split; [done|split]].
  - unfold write. rewrite Hp. simpl. unfold write_file.
    by destruct (d !! ("10000_" +:+ fn)) as [[]|].
  - rewrite (read_latest _ _ _ Hm' (revision_ne_empty fn 9999)).
    rewrite (read_latest _ _ _ Hm (revision_ne_empty fn 9999)).
    unfold read_file, d'. rewrite lookup_insert_ne; [done|].
    by apply string_ltb_ne.
  - rewrite <- Hrev.
    apply (numbered_new_file_path dn fn 9999 d'); [|lia]. right. split; [lia|done].
Qed.



(** X8: two datasets in one directory do not disturb each other: a write
    through one handle to a path that does not end with the other
    handle's file name changes neither the latest revision nor the next
    revision of the other handle, nor what [read] returns through it. *)
Theorem X8_datasets_are_isolated (self other : BackupFile)
    (d : gmap string entry) (data : pyval) (path : string) (fs' : backup_dir) :
  new_file_path self (Some d) = Return path →
  ¬ Py.endswith path (file_name other) →
  write self data (Some d) = Return fs' →
  latest_revision other fs' = latest_revision other (Some d)
  ∧ next_revision other fs' = next_revision other (Some d)
  ∧ read other fs' = read other (Some d).
Proof.
  intros Hp Hend Hw. unfold write in Hw. rewrite Hp in Hw. simpl in Hw.
  assert (fs' = Some (<[path := JsonFile (json_dump datetime_json_serialize data)]> d))
    as ->.
  { unfold write_file in Hw. destruct (d !! path) as [[]|]; by inversion Hw. }
  set (d' := <[path := _]> d).
  assert (∀ k, Py.endswith k (file_name other) → k ∈ dom d' ↔ k ∈ dom d) as Hdom.
  { intros k Hk. unfold d'. rewrite dom_insert_L.
    assert (k ≠ path) by (by intros ->). set_solver. }
  assert (latest_revision other (Some d') = latest_revision other (Some d)) as Hl
    by by apply latest_revision_only_matching.
  split; [done|]. split; [by apply next_revision_only_matching|].
  unfold read, latest_file_path, new_file_path.
  rewrite Hl, (next_revision_only_matching other d' d Hdom).
  destruct (latest_file_path_cases other d)
    as [(m & Hm & Hne & Hpath)|(_ & p & Hpath & _ & Hpend)];
    unfold latest_file_path, new_file_path in Hpath; rewrite Hpath; simpl.
  - unfold d'. rewrite lookup_insert_ne; [done|].
    intros <-. by destruct Hm as (_ & ? & _).
  - unfold d'. rewrite lookup_insert_ne; [done|]. by intros <-.
Qed.


End WriteFrame.


(** Revision 9999 next to an older one. *)
Lemma X7_numbering_stuck_after_9999_witness :
  let x := handle "migrations" "x.json" in
  let d : gmap string entry :=
    {[ "9999_x.json" := JsonFile (JNum 1); "0001_x.json" := JsonFile (JNum 0) ]} in
  let d' := <["10000_x.json" := JsonFile (JNum 3)]> d in
  write x (PyInt 3 : Naive.value) (Some d) = Return (Some d')
  ∧ is_latest x d' "9999_x.json"
  ∧ read (datetime := Naive.datetime) (date := Naive.date) x (Some d')
    = read x (Some d)
  ∧ new_file_path x (Some d') = Return "10000_x.json".
Proof.
  intros x d.
  apply (X7_numbering_stuck_after_9999 "migrations" "x.json" d (PyInt 3 : Naive.value)).
  - split; [|split; [done|]].
    + apply (bool_decide_unpack _); vm_compute; exact I.
    + intros k Hk _. unfold d in Hk.
      rewrite dom_insert_L, dom_singleton_L in Hk.
      apply elem_of_union in Hk as [Hk|Hk]; apply elem_of_singleton in Hk as ->;
        by vm_compute.
  - vm_compute. intros [=].
Defined.

(** Two datasets in the directory [migrations]. *)
Lemma X8_datasets_are_isolated_witness :
  let a := handle "migrations" "a.json" in
  let b := handle "migrations" "b.json" in
  let d : gmap string entry :=
    {[ "0001_a.json" := JsonFile (JNum 1); "0004_b.json" := JsonFile (JNum 2) ]} in
  let fs' : backup_dir := Some (<["0002_a.json" := JsonFile (JNum 3)]> d) in
  latest_revision b fs' = latest_revision b (Some d)
  ∧ next_revision b fs' = next_revision b (Some d)
  ∧ read (datetime := Naive.datetime) (date := Naive.date) b fs' = read b (Some d).
Proof.
  intros a b d fs'.
  apply (X8_datasets_are_isolated a b d (PyInt 3 : Naive.value) "0002_a.json" fs').
  - vm_compute. reflexivity.
  - vm_compute. intros [].
  - vm_compute. reflexivity.
Defined.

(** ** The object hook and the shape of what is read *)

Section Loading.
Context {datetime date : Type} `{!DatetimeLib datetime date}.
Local Abbreviation pyval := (@pyval datetime date) (only parsing).

(** Induction on documents, through arrays and objects. *)
Lemma json_nested_ind (P : json → Prop) :
  P JNull →
  (∀ b, P (JBool b)) →
  (∀ n, P (JNum n)) →
  (∀ s, P (JStr s)) →
  (∀ l, Forall P l → P (JArr l)) →
  (∀ members, Forall (λ kv, P kv.2) members → P (JObj members)) →
  ∀ j, P j.
Proof.
  intros HNull HBool HNum HStr HArr HObj.
  fix IH 1. intros [|b|n|s|l|members].
  - exact HNull.
  - exact (HBool b).
  - exact (HNum n).
  - exact (HStr s).
  - apply HArr. induction l as [|x l IHl]; constructor; [apply IH|apply IHl].
  - apply HObj. induction members as [|[k x] members IHl]; constructor;
      [apply IH|apply IHl].
Qed.

Lemma dict_set_NoDup (k : string) (v : pyval) (obj : list (string * pyval)) :
  NoDup (keys obj) → NoDup (keys (dict_set k v obj)).
Proof.
  intros Hnd. destruct (decide (k ∈ keys obj)) as [Hin|Hin].
  - by rewrite keys_dict_set.
  - rewrite dict_set_fresh by done. unfold keys in *. rewrite fmap_app.
    apply NoDup_app. split; [done|]. split; [|apply NoDup_singleton].
    intros k' Hk' Hk''. simpl in Hk''. apply list_elem_of_singleton in Hk'' as ->.
    done.
Qed.

Lemma elem_of_dict_set (k : string) (v : pyval) (obj : list (string * pyval))
    (kv : string * pyval) :
  kv ∈ dict_set k v obj → kv = (k, v) ∨ kv ∈ obj.
Proof.
  induction obj as [|[k0 v0] obj IH]; simpl.
  - intros Hin%list_elem_of_singleton. by left.
  - destruct (String.eqb_spec k0 k) as [->|Hne].
    + intros [->|Hin]%elem_of_cons; [by left|]. right. by right.
    + intros [->|Hin]%elem_of_cons; [right; by left|].
      destruct (IH Hin) as [->|Hin']; [by left|]. right. by right.
Qed.

(** [dict(pairs)] has distinct keys and holds only values of [pairs],
    whatever keys repeat in [pairs]. *)
Lemma dict_of_pairs_distinct (pairs : list (string * pyval)) :
  NoDup (keys (dict_of_pairs pairs))
  ∧ ∀ kv, kv ∈ dict_of_pairs pairs → kv ∈ pairs.
Proof.
  unfold dict_of_pairs.
  assert (∀ acc, NoDup (keys acc) →
    NoDup (keys (fold_left (λ obj kv, dict_set kv.1 kv.2 obj) pairs acc))
    ∧ ∀ kv, kv ∈ fold_left (λ obj kv, dict_set kv.1 kv.2 obj) pairs acc →
            kv ∈ acc ∨ kv ∈ pairs) as Hgen.
  { induction pairs as [|[k v] pairs IH]; intros acc Hnd; simpl.
    - split; [done|]. intros kv Hkv. by left.
    - destruct (IH (dict_set k v acc) (dict_set_NoDup k v acc Hnd)) as [H1 H2].
      split; [done|]. intros kv Hkv.
      destruct (H2 kv Hkv) as [Hin|Hin]; [|right; by right].
      destruct (elem_of_dict_set _ _ _ _ Hin) as [->|Hin']; [right; by left|].
      by left. }
  destruct (Hgen [] (NoDup_nil_2)) as [H1 H2]. split; [done|].
  intros kv Hkv. destruct (H2 kv Hkv) as [Hin|Hin]; [|done].
  by apply elem_of_nil in Hin.
Qed.

Lemma converted_idemp (v : pyval) : converted (converted v) = converted v.
Proof.
  unfold converted. destruct (try_fromisoformat v) eqn:Hv; simpl; [done|].
  by rewrite Hv.
Qed.

Lemma keys_fmap_value {A B : Type} (f : string * A → B) (items : list (string * A)) :
  keys ((λ kv, (kv.1, f kv)) <$> items) = keys items.
Proof.
  unfold keys. rewrite <- list_fmap_compose. by apply list_fmap_ext.
Qed.

(** X9: the object hook assigns into the record it is iterating over, and
    yet it visits every field once: on a record (distinct keys) it keeps
    the keys and their order, replaces the value of exactly the fields
    holding a string that [fromisoformat] parses by the parsed datetime,
    leaves every other value as it is, and applying it twice is applying
    it once. *)
Theorem X9_hook_converts_in_place (obj : list (string * pyval)) :
  NoDup (keys obj) →
  keys (datetime_json_deserialize obj) = keys obj
  ∧ (∀ (i : nat) k v, obj !! i = Some (k, v) →
       datetime_json_deserialize obj !! i
       = Some (k, match v with
                  | PyStr s => match fromisoformat s with
                               | Some dt => PyDatetime dt
                               | None => v
                               end
                  | _ => v
                  end))
  ∧ datetime_json_deserialize (datetime_json_deserialize obj)
    = datetime_json_deserialize obj.
Proof.
  intros Hnd. rewrite (datetime_json_deserialize_NoDup obj Hnd).
  rewrite (keys_fmap_value (λ kv, converted kv.2)).
  split; [done|]. split.
  - intros i k v Hi. rewrite list_lookup_fmap, Hi. simpl. do 2 f_equal.
    by destruct v.
  - rewrite datetime_json_deserialize_NoDup
      by by rewrite (keys_fmap_value (λ kv, converted kv.2)).
    rewrite <- list_fmap_compose. apply list_fmap_ext.
    intros i [k v] _. simpl. by rewrite converted_idemp.
Qed.

Lemma loaded_list (b : bool) (l : list pyval) :
  loaded b (PyList l) ↔ Forall (loaded false) l.
Proof.
  induction l as [|x l IH]; simpl; [done|].
  rewrite Forall_cons. simpl in IH. by rewrite IH.
Qed.

Lemma loaded_dict (b : bool) (items : list (string * pyval)) :
  loaded b (PyDict items)
  ↔ NoDup (keys items) ∧ Forall (λ kv, loaded true kv.2) items.
Proof.
  simpl. apply and_iff_compat_l.
  induction items as [|x l IH]; simpl; [done|].
  rewrite Forall_cons. by rewrite IH.
Qed.

(** Every document loads to a value of the shape [loaded], and to one that
    keeps this shape when the hook converts it as a field. *)
Lemma json_load_loaded (doc : json) :
  loaded false (json_load datetime_json_deserialize doc)
  ∧ loaded true (converted (json_load datetime_json_deserialize doc)).
Proof.
  induction doc as [ | | |s|l IH|members IH] using json_nested_ind;
    try (split; done).
  - split; [done|]. unfold converted. simpl.
    destruct (fromisoformat s) as [d|] eqn:Hs; simpl; [by exists s|done].
  - assert (∀ b, loaded b (json_load datetime_json_deserialize (JArr l))) as Hl.
    { intros b. simpl json_load. apply loaded_list.
      apply Forall_fmap. eapply Forall_impl; [exact IH|]. by intros x [? _]. }
    split; [apply Hl|]. apply (Hl true).
  - assert (∀ b, loaded b (json_load datetime_json_deserialize (JObj members)))
      as Hd.
    { intros b. simpl json_load. apply loaded_dict.
      set (pairs := map _ members).
      destruct (dict_of_pairs_distinct pairs) as [Hnd Hsub].
      rewrite (datetime_json_deserialize_NoDup _ Hnd).
      rewrite (keys_fmap_value (λ kv, converted kv.2)).
      split; [done|]. apply Forall_fmap. apply Forall_forall.
      intros kv Hkv%Hsub. unfold pairs in Hkv.
      apply list_elem_of_fmap in Hkv as (kv0 & -> & Hkv0). simpl.
      rewrite Forall_forall in IH. by destruct (IH kv0 Hkv0). }
    split; [apply Hd|]. apply (Hd true).
Qed.

Lemma read_returns_document (self : BackupFile) (fs : backup_dir) (v : pyval) :
  read self fs = Return v →
  ∃ doc, v = json_load datetime_json_deserialize doc.
Proof.
  unfold read. intros Hr.
  destruct (latest_file_path self fs) as [path|]; [|done]. simpl in Hr.
  destruct (read_file path fs) as [doc|]; [|done]. simpl in Hr.
  injection Hr as <-. by exists doc.
Qed.

(** X10: whatever [read] returns is built of null, booleans, integers,
    strings, lists and records with distinct keys; a datetime occurs only
    directly as the value of a record field, where no string is left that
    [fromisoformat] parses; a datetime at the top or inside a list, a
    date, and an unsupported object never occur. *)
Theorem X10_read_value_shape (self : BackupFile) (fs : backup_dir) (v : pyval) :
  read self fs = Return v → loaded false v.
Proof.
  intros Hr. destruct (read_returns_document _ _ _ Hr) as [doc ->].
  apply json_load_loaded.
Qed.

Lemma stable_list_any (b : bool) (l : list pyval) :
  stable b (PyList l) ↔ Forall (stable false) l.
Proof. exact (stable_list l). Qed.

Lemma loaded_stable (v : pyval) :
  parsed_datetimes_reparse → ∀ b, loaded b v → stable b v.
Proof.
  intros Hlaw.
  induction v as [ | | | |l IH|items IH| | | ] using pyval_nested_ind;
    intros in_dict Hv; try done.
  - apply stable_list_any. apply loaded_list in Hv.
    rewrite Forall_forall in IH, Hv. apply Forall_forall.
    intros x Hx. by apply IH, Hv.
  - apply stable_dict. apply loaded_dict in Hv as [Hnd Hv]. split; [done|].
    rewrite Forall_forall in IH, Hv. apply Forall_forall.
    intros x Hx. by apply IH, Hv.
  - destruct in_dict; [|done]. simpl in *. destruct Hv as [s Hs]. by eapply Hlaw.
Qed.

(** X11: what [read] returned can be saved again without loss: when
    [fromisoformat] parses again the [isoformat] of each datetime it
    produces, writing the value [read] returned to a store whose latest
    revision is canonical, and reading, returns that same value. *)
Theorem X11_read_value_survives_rewrite (self : BackupFile) (fs : backup_dir)
    (v : pyval) (dn fn : string) (d : gmap string entry) :
  parsed_datetimes_reparse →
  read self fs = Return v →
  store_ready (handle dn fn) (Some d) →
  ∃ fs', write (handle dn fn) v (Some d) = Return fs'
         ∧ read (handle dn fn) fs' = Return v.
Proof.
  intros Hlaw Hr Hready.
  destruct (write_then_read dn fn d v Hready) as (path & _ & Hw & Hrd).
  eexists. split; [exact Hw|]. rewrite Hrd. f_equal.
  apply stable_reread. apply loaded_stable; [done|].
  destruct (read_returns_document _ _ _ Hr) as [doc ->].
  apply json_load_loaded.
Qed.

End Loading.

(** The naive [fromisoformat] returns valid datetimes only, hence
    datetimes it parses again from their [isoformat]. *)
Lemma naive_fromisoformat_valid (s : string) (d : Naive.datetime) :
  Naive.fromisoformat s = Some d → Naive.valid d = true.
Proof.
  unfold Naive.fromisoformat.
  destruct (Naive.parse_date _) as [[[y m] dd]|]; [|done]. simpl.
  destruct (match Py.slice_from 10 s with "" => _ | String _ tstr => _ end)
    as [[[[h mi] sec] us]|]; [|done]. simpl.
  destruct (Naive.valid_date y m dd && Naive.valid_time h mi sec us) eqn:Hv;
    [|done].
  by intros [= <-].
Qed.

Lemma naive_parsed_datetimes_reparse :
  parsed_datetimes_reparse (datetime := Naive.datetime) (date := Naive.date).
Proof.
  intros s d Hs. apply naive_roundtrip. by eapply naive_fromisoformat_valid.
Qed.

(** A record with an ISO-formatted string and a plain one. *)
Lemma X9_hook_converts_in_place_witness :
  let obj : list (string * Naive.value) :=
    [("id", PyInt 1); ("applied", PyStr "2024-01-01T00:00:00");
     ("name", PyStr "0001_initial")] in
  keys (datetime_json_deserialize obj) = keys obj
  ∧ (∀ (i : nat) k v, obj !! i = Some (k, v) →
       datetime_json_deserialize obj !! i
       = Some (k, match v with
                  | PyStr s => match fromisoformat s with
                               | Some dt => PyDatetime dt
                               | None => v
                               end
                  | _ => v
                  end))
  ∧ datetime_json_deserialize (datetime_json_deserialize obj)
    = datetime_json_deserialize obj.
Proof.
  intros obj. apply (X9_hook_converts_in_place obj).
  apply (bool_decide_unpack _); vm_compute; exact I.
Defined.

(** A snapshot with a nested list and an ISO-formatted string. *)
Lemma X10_read_value_shape_witness :
  loaded false
    (PyList [PyDict [("applied", PyDatetime (Naive.mk 2024 1 1 0 0 0 0));
                     ("tags", PyList [PyStr "2024-01-01"; PyNone])]]
     : Naive.value).
Proof.
  apply (X10_read_value_shape (handle "migrations" "x.json")
           (Some {[ "0001_x.json" :=
                      JsonFile (JArr [JObj [("applied", JStr "2024-01-01T00:00:00");
                                            ("tags", JArr [JStr "2024-01-01"; JNull])]]) ]})).
  vm_compute. reflexivity.
Defined.

(** What is read from one dataset, written to an empty directory as
    another. *)
Lemma X11_read_value_survives_rewrite_witness :
  let v : Naive.value :=
    PyList [PyDict [("applied", PyDatetime (Naive.mk 2024 1 1 0 0 0 0));
                    ("tags", PyList [PyStr "2024-01-01"; PyNone])]] in
  ∃ fs', write (handle "copies" "y.json") v (Some ∅) = Return fs'
         ∧ read (handle "copies" "y.json") fs' = Return v.
Proof.
  intros v.
  apply (X11_read_value_survives_rewrite (handle "migrations" "x.json")
           (Some {[ "0001_x.json" :=
                      JsonFile (JArr [JObj [("applied", JStr "2024-01-01T00:00:00");
                                            ("tags", JArr [JStr "2024-01-01"; JNull])]]) ]})
           v "copies" "y.json" ∅).
  - exact naive_parsed_datetimes_reparse.
  - vm_compute. reflexivity.
  - vm_compute. exact I.
Defined.

(** ** Field by field through write and read *)

Section Fields.
Context {datetime date : Type} `{!DatetimeLib datetime date}.
Local Abbreviation pyval := (@pyval datetime date) (only parsing).

Lemma write_read_records (dn fn : string) (d : gmap string entry)
    (recs : list (list (string * pyval))) :
  store_ready (handle dn fn) (Some d) →
  Forall (λ r, NoDup (keys r)) recs →
  ∃ path,
    (path ∉ dom d)
    ∧ write (handle dn fn) (records recs) (Some d)
      = Return (Some (<[path := JsonFile (json_dump datetime_json_serialize
                                            (records recs))]> d))
    ∧ read (handle dn fn)
        (Some (<[path := JsonFile (json_dump datetime_json_serialize
                                     (records recs))]> d))
      = Return (records ((λ r : list (string * pyval), field_read_back <$> r) <$> recs)).
Proof.
  intros Hr Hnd.
  destruct (write_then_read dn fn d (records recs) Hr) as (path & Hfresh & Hw & Hrd).
  exists path. split; [done|]. split; [done|].
  rewrite Hrd. unfold records. rewrite reread_list. do 2 f_equal.
  rewrite <- !list_fmap_compose.
  apply Forall_fmap_ext_1. eapply Forall_impl; [done|].
  intros r Hr'. simpl. by apply reread_dict.
Qed.

(** X12: what is lost between [write] and [read], field by field. A field
    holding an unsupported object is read back as [None]; a datetime
    inside a list held by a field is read back as its ISO string, not as
    a datetime; a date is read back as whatever [fromisoformat] makes of
    its ISO string: a datetime when it parses, the string otherwise. *)
Theorem X12_lossy_fields (dn fn : string) (d : gmap string entry)
    (recs : list (list (string * pyval))) (i j : nat)
    (r : list (string * pyval)) (k : string) :
  store_ready (handle dn fn) (Some d) →
  Forall (λ r, NoDup (keys r)) recs →
  recs !! i = Some r →
  ∃ fs' out r',
    write (handle dn fn) (records recs) (Some d) = Return fs'
    ∧ read (handle dn fn) fs' = Return (records out)
    ∧ out !! i = Some r'
    ∧ (∀ tag, r !! j = Some (k, PyOther tag) → r' !! j = Some (k, PyNone))
    ∧ (∀ l (n : nat) dt,
         r !! j = Some (k, PyList l) → l !! n = Some (PyDatetime dt) →
         ∃ l', r' !! j = Some (k, PyList l')
               ∧ l' !! n = Some (PyStr (isoformat dt)))
    ∧ (∀ dd, r !! j = Some (k, PyDate dd) →
         r' !! j = Some (k, match fromisoformat (date_isoformat dd) with
                            | Some dt => PyDatetime dt
                            | None => PyStr (date_isoformat dd)
                            end)).
Proof.
  intros Hr Hnd Hi.
  destruct (write_read_records dn fn d recs Hr Hnd) as (path & _ & Hw & Hrd).
  eexists _, _, (field_read_back <$> r).
  split; [exact Hw|]. split; [exact Hrd|].
  split; [by rewrite list_lookup_fmap, Hi|].
  split; [|split].
  - intros tag Hj. by rewrite list_lookup_fmap, Hj.
  - intros l n dt Hj Hn. exists (reread <$> l). split.
    + rewrite list_lookup_fmap, Hj. simpl. unfold field_read_back. simpl.
      by rewrite reread_list.
    + by rewrite list_lookup_fmap, Hn.
  - intros dd Hj. by rewrite list_lookup_fmap, Hj.
Qed.

End Fields.

(** A record with an unsupported object, a list holding a datetime, and a
    date; the field looked at is the list. *)
Lemma X12_lossy_fields_witness :
  let r : list (string * Naive.value) :=
    [("checksum", PyOther 0);
     ("seen", PyList [PyDatetime (Naive.mk 2024 1 1 10 30 0 0)]);
     ("day", PyDate {| Naive.dyear := 2024; Naive.dmonth := 2; Naive.dday := 29 |})] in
  ∃ fs' out r',
    write (handle "migrations" "backup.json") (records [r]) (Some ∅) = Return fs'
    ∧ read (handle "migrations" "backup.json") fs' = Return (records out)
    ∧ out !! 0%nat = Some r'
    ∧ (∀ tag, r !! 1%nat = Some ("seen", PyOther tag) →
         r' !! 1%nat = Some ("seen", PyNone))
    ∧ (∀ l (n : nat) dt,
         r !! 1%nat = Some ("seen", PyList l) → l !! n = Some (PyDatetime dt) →
         ∃ l', r' !! 1%nat = Some ("seen", PyList l')
               ∧ l' !! n = Some (PyStr (isoformat dt)))
    ∧ (∀ dd, r !! 1%nat = Some ("seen", PyDate dd) →
         r' !! 1%nat = Some ("seen", match fromisoformat (date_isoformat dd) with
                                     | Some dt => PyDatetime dt
                                     | None => PyStr (date_isoformat dd)
                                     end)).
Proof.
  intros r.
  apply (X12_lossy_fields "migrations" "backup.json" ∅ [r] 0 1 r "seen").
  - vm_compute. exact I.
  - repeat (apply Forall_cons; split); [|by apply Forall_nil].
    apply (bool_decide_unpack _); vm_compute; exact I.
  - reflexivity.
Defined.

(** The naive [fromisoformat] reads the ISO string of a valid date as the
    datetime at midnight of that day. *)
Lemma naive_date_midnight (dd : Naive.date) :
  Naive.valid_date (Naive.dyear dd) (Naive.dmonth dd) (Naive.dday dd) = true →
  Naive.fromisoformat (Naive.date_isoformat dd)
  = Some (Naive.mk (Naive.dyear dd) (Naive.dmonth dd) (Naive.dday dd) 0 0 0 0).
Proof.
  destruct dd as [y m d]. simpl. intros Hv. pose proof Hv as Hd.
  unfold Naive.valid_date in Hd.
  repeat (apply andb_prop in Hd as [Hd ?]).
  pose proof (days_in_month_le y m).
  repeat match goal with
         | H : (_ <=? _) = true |- _ => apply Z.leb_le in H
         | H : (_ <? _) = true |- _ => apply Z.ltb_lt in H
         end.
  unfold Naive.date_isoformat. simpl.
  rewrite (format_fixed 4 y), !(format_fixed 2) by (simpl; lia).
  cbn [fixed_acc].
  naive_digits.
  rewrite (digits4_value y), (digits2_value m), (digits2_value d) by lia.
  rewrite Hv. done.
Qed.

(** X13: with naive datetimes, a field holding a valid date is read back
    as the datetime at midnight of that day. *)
Theorem X13_date_read_as_midnight (dn fn : string) (d : gmap string entry)
    (recs : list (list (string * Naive.value))) (i j : nat)
    (r : list (string * Naive.value)) (k : string) (dd : Naive.date) :
  store_ready (handle dn fn) (Some d) →
  Forall (λ r, NoDup (keys r)) recs →
  recs !! i = Some r → r !! j = Some (k, PyDate dd) →
  Naive.valid_date (Naive.dyear dd) (Naive.dmonth dd) (Naive.dday dd) = true →
  ∃ fs' out r',
    write (handle dn fn) (records recs) (Some d) = Return fs'
    ∧ read (handle dn fn) fs' = Return (records out)
    ∧ out !! i = Some r'
    ∧ r' !! j
      = Some (k, PyDatetime (Naive.mk (Naive.dyear dd) (Naive.dmonth dd)
                               (Naive.dday dd) 0 0 0 0)).
Proof.
  intros Hr Hnd Hi Hj Hv.
  destruct (write_read_records dn fn d recs Hr Hnd) as (path & _ & Hw & Hrd).
  eexists _, _, (field_read_back <$> r).
  split; [exact Hw|]. split; [exact Hrd|].
  split; [by rewrite list_lookup_fmap, Hi|].
  rewrite list_lookup_fmap, Hj. simpl. unfold field_read_back, converted, reread.
  simpl. change (fromisoformat (date_isoformat dd))
    with (Naive.fromisoformat (Naive.date_isoformat dd)).
  by rewrite naive_date_midnight.
Qed.

(** A record holding the 29th of February 2024. *)
Lemma X13_date_read_as_midnight_witness :
  let recs : list (list (string * Naive.value)) :=
    [[("id", PyInt 1);
      ("day", PyDate {| Naive.dyear := 2024; Naive.dmonth := 2; Naive.dday := 29 |})]] in
  ∃ fs' out r',
    write (handle "migrations" "backup.json") (records recs) (Some ∅) = Return fs'
    ∧ read (handle "migrations" "backup.json") fs' = Return (records out)
    ∧ out !! 0%nat = Some r'
    ∧ r' !! 1%nat = Some ("day", PyDatetime (Naive.mk 2024 2 29 0 0 0 0)).
Proof.
  intros recs.
  apply (X13_date_read_as_midnight "migrations" "backup.json" ∅ recs 0 1
           [("id", PyInt 1);
            ("day", PyDate {| Naive.dyear := 2024; Naive.dmonth := 2;
                              Naive.dday := 29 |})]
           "day" {| Naive.dyear := 2024; Naive.dmonth := 2; Naive.dday := 29 |}).
  - vm_compute. exact I.
  - repeat (apply Forall_cons; split); [|by apply Forall_nil].
    apply (bool_decide_unpack _); vm_compute; exact I.
  - reflexivity.
  - reflexivity.
  - reflexivity.
Defined.

(** ** Building the rows and restoring *)

Section Restoring.
Context {datetime date : Type} `{!DatetimeLib datetime date}
  `{!TableAccess datetime date}.
Local Abbreviation pyval := (@pyval datetime date) (only parsing).

Lemma for_each_append_return (elems : list pyval) :
  ∀ (acc rows : list row),
    for_each_append elems acc = Return rows
    ↔ ∃ new, Forall2 (λ x r, make_migration x = Return r) elems new
             ∧ rows = acc ++ new.
Proof.
  induction elems as [|x elems IH]; intros acc rows; simpl.
  - split.
    + intros [= <-]. exists []. split; [constructor|by rewrite app_nil_r].
    + intros (new & Hnew & ->). apply Forall2_nil_inv_l in Hnew as ->.
      by rewrite app_nil_r.
  - destruct (make_migration x) as [r|e] eqn:Hx; simpl.
    + rewrite IH. split.
      * intros (new & Hnew & ->). exists (r :: new).
        split; [by constructor|by rewrite <- app_assoc].
      * intros (new & Hnew & ->).
        apply Forall2_cons_inv_l in Hnew as (r' & new' & Hr' & Hnew' & ->).
        exists new'. split; [done|]. rewrite <- app_assoc. simpl. congruence.
    + split; [done|]. intros (new & Hnew & _).
      apply Forall2_cons_inv_l in Hnew as (r' & new' & Hr' & _). congruence.
Qed.

Lemma for_each_append_raise (elems : list pyval) :
  ∀ (acc : list row) (e : pyerr),
    for_each_append elems acc = Raise e
    ↔ ∃ (i : nat) x built,
        elems !! i = Some x ∧ make_migration x = Raise e
        ∧ Forall2 (λ x r, make_migration x = Return r) (take i elems) built.
Proof.
  induction elems as [|x elems IH]; intros acc e; simpl.
  - split; [done|]. by intros (i & x & built & Hi & _).
  - destruct (make_migration x) as [r|e'] eqn:Hx; simpl.
    + rewrite IH. split.
      * intros (i & y & built & Hi & Hy & Hbuilt).
        exists (S i), y, (r :: built). split; [done|]. split; [done|].
        simpl. by constructor.
      * intros (i & y & built & Hi & Hy & Hbuilt). destruct i as [|i].
        { simpl in Hi. injection Hi as <-. congruence. }
        simpl in Hi, Hbuilt.
        apply Forall2_cons_inv_l in Hbuilt as (r' & built' & _ & Hbuilt' & _).
        by exists i, y, built'.
    + split.
      * intros [= <-]. exists 0%nat, x, []. split; [done|]. split; [done|].
        constructor.
      * intros (i & y & built & Hi & Hy & Hbuilt). destruct i as [|i].
        { simpl in Hi. injection Hi as <-. congruence. }
        simpl in Hbuilt.
        apply Forall2_cons_inv_l in Hbuilt as (r' & built' & Hr' & _). congruence.
Qed.

(** X14: [get_migrations_data_from_backup] returns rows exactly when the
    snapshot read can be iterated and the row constructor accepts every
    element; the rows are then the constructor's results, one per element
    and in the order of the snapshot. It raises what [read] raised, or
    [TypeError] for a snapshot that cannot be iterated, or what the
    constructor raised on the first element it rejects. *)
Theorem X14_rows_follow_the_snapshot (fh : BackupFile) (fs : backup_dir)
    (rows : list row) (e : pyerr) :
  (get_migrations_data_from_backup fh fs = Return rows
   ↔ ∃ v elems,
       read fh fs = Return v ∧ py_iter v = Return elems
       ∧ Forall2 (λ x r, make_migration x = Return r) elems rows)
  ∧ (get_migrations_data_from_backup fh fs = Raise e
     ↔ read fh fs = Raise e
       ∨ ∃ v, read fh fs = Return v
              ∧ (py_iter v = Raise e
                 ∨ ∃ elems (i : nat) x built,
                     py_iter v = Return elems
                     ∧ elems !! i = Some x ∧ make_migration x = Raise e
                     ∧ Forall2 (λ x r, make_migration x = Return r)
                         (take i elems) built)).
Proof.
  unfold get_migrations_data_from_backup.
  destruct (read fh fs) as [v|e1]; simpl.
  - destruct (py_iter v) as [elems|e2] eqn:Hit; simpl.
    + split.
      * rewrite for_each_append_return. split.
        -- intros (new & Hnew & ->). by exists v, elems.
        -- intros (v' & elems' & [= <-] & Hit' & Hall).
           rewrite Hit in Hit'. injection Hit' as <-. by exists rows.
      * rewrite for_each_append_raise. split.
        -- intros (i & x & built & Hi & Hx & Hb). right. exists v.
           split; [done|]. right. by exists elems, i, x, built.
        -- intros [?|(v' & [= <-] & [Hit'|(elems' & i & x & built & Hit' & Hi & Hx & Hb)])];
             [done|congruence|].
           rewrite Hit in Hit'. injection Hit' as <-. by exists i, x, built.
    + split.
      * split; [done|]. intros (v' & elems' & [= <-] & Hit' & _). congruence.
      * split.
        -- intros [= <-]. right. exists v. split; [done|]. by left.
        -- intros [?|(v' & [= <-] & [Hit'|(elems' & i & x & built & Hit' & _)])];
             [done|congruence|congruence].
  - split.
    + split; [done|]. by intros (v' & elems' & ? & _).
    + split.
      * intros [= <-]. by left.
      * intros [[= <-]|(v' & ? & _)]; done.
Qed.

Lemma read_no_revision (self : BackupFile) (fs : backup_dir) :
  (∀ d, fs = Some d → no_revision self d) →
  read (datetime := datetime) (date := date) self fs = Raise FileNotFoundError.
Proof.
  destruct fs as [d|]; [|done]. intros Hno. specialize (Hno d eq_refl).
  unfold read, latest_file_path, new_file_path.
  rewrite (latest_revision_None _ _ Hno). simpl.
  rewrite (next_revision_first _ _ Hno). simpl.
  assert ((REVISION_START_FROM +:+ "_" +:+ file_name self) ∉ dom d) as Hfresh.
  { intros Hin. apply (Hno _ Hin). apply (revision_endswith _ 1). }
  apply not_elem_of_dom in Hfresh. by rewrite Hfresh.
Qed.

(** X15: restoring without a backup deletes nothing. When the backup
    directory is missing, or holds no entry ending with the file name,
    the body of the restore raises a not-found error before it touches
    the table, and so do [restore] and [load]. *)
Theorem X15_restore_without_backup (fh : BackupFile) (fs : backup_dir)
    (t : table) :
  (∀ d, fs = Some d → no_revision fh d) →
  restore_body fh fs t = (Raise FileNotFoundError, t)
  ∧ restore {| restore_file_handler := fh |} fs t = (Raise FileNotFoundError, t)
  ∧ load {| file_handler := fh |} fs t = (Raise FileNotFoundError, t).
Proof.
  intros Hno.
  assert (restore_body fh fs t = (Raise FileNotFoundError, t)) as Hb.
  { unfold restore_body, get_migrations_data_from_backup.
    by rewrite (read_no_revision fh fs Hno). }
  split; [done|]. unfold restore, load, atomic. simpl. by rewrite Hb.
Qed.

Lemma dict_set_not_nil (k : string) (v : pyval) (obj : list (string * pyval)) :
  dict_set k v obj ≠ [].
Proof. destruct obj as [|[k' v'] obj]; simpl; [done|]. by case_match. Qed.

Lemma dict_of_pairs_not_nil (kv : string * pyval) (pairs : list (string * pyval)) :
  dict_of_pairs (kv :: pairs) ≠ [].
Proof.
  unfold dict_of_pairs. simpl.
  assert (∀ acc, acc ≠ [] →
            fold_left (λ obj kv, dict_set kv.1 kv.2 obj) pairs acc ≠ []) as Hgen.
  { induction pairs as [|x pairs IH]; intros acc Hacc; simpl; [done|].
    apply IH, dict_set_not_nil. }
  apply Hgen. done.
Qed.

Lemma get_migrations_data_latest (fh : BackupFile) (d : gmap string entry)
    (m : string) (doc : json) :
  is_latest fh d m → m ≠ "" → d !! m = Some (JsonFile doc) →
  get_migrations_data_from_backup fh (Some d)
  = elems ← py_iter (json_load datetime_json_deserialize doc);
    for_each_append elems [].
Proof.
  intros Hm Hne Hd. unfold get_migrations_data_from_backup.
  rewrite (read_latest _ _ _ Hm Hne). unfold read_file. by rewrite Hd.
Qed.

(** X16: a snapshot that is not a list of records is refused before the
    table is touched. When the latest snapshot file holds JSON null, a
    boolean, a number, a non-empty string or a non-empty object, the body
    of the restore raises [TypeError] with the table as it was, and so
    does [restore]. *)
Theorem X16_snapshot_not_a_list (fh : BackupFile) (d : gmap string entry)
    (m : string) (doc : json) (t : table) :
  is_latest fh d m → m ≠ "" → d !! m = Some (JsonFile doc) →
  (doc = JNull ∨ (∃ b, doc = JBool b) ∨ (∃ n, doc = JNum n)
   ∨ (∃ c s, doc = JStr (String c s))
   ∨ (∃ member members, doc = JObj (member :: members))) →
  restore_body fh (Some d) t = (Raise TypeError, t)
  ∧ restore {| restore_file_handler := fh |} (Some d) t = (Raise TypeError, t).
Proof.
  intros Hm Hne Hd Hdoc.
  assert (get_migrations_data_from_backup fh (Some d) = Raise TypeError) as Hg.
  { rewrite (get_migrations_data_latest _ _ _ _ Hm Hne Hd).
    destruct Hdoc as [->|[[b ->]|[[n ->]|[(c & s & ->)|(kv & members & ->)]]]];
      try done.
    simpl json_load.
    destruct (datetime_json_deserialize _) as [|[k v] items] eqn:Hitems; [|done].
    exfalso.
    destruct (dict_of_pairs_distinct
                (map (λ kv : string * json,
                        (kv.1, json_load datetime_json_deserialize kv.2))
                   (kv :: members))) as [Hnd _].
    rewrite (datetime_json_deserialize_NoDup _ Hnd) in Hitems.
    apply fmap_nil_inv in Hitems. by apply dict_of_pairs_not_nil in Hitems. }
  assert (restore_body fh (Some d) t = (Raise TypeError, t)) as Hb.
  { unfold restore_body. by rewrite Hg. }
  split; [done|]. unfold restore, atomic. simpl. by rewrite Hb.
Qed.

(** X17: an empty snapshot empties the table. When the latest snapshot
    file holds an empty list, or an empty object or an empty string (both
    iterate as nothing), no row is built, and the restore is the deletion
    of all rows followed by a bulk insert of no rows. *)
Theorem X17_empty_snapshot (fh : BackupFile) (d : gmap string entry)
    (m : string) (doc : json) (t : table) :
  is_latest fh d m → m ≠ "" → d !! m = Some (JsonFile doc) →
  doc = JArr [] ∨ doc = JObj [] ∨ doc = JStr "" →
  get_migrations_data_from_backup fh (Some d) = Return []
  ∧ ∀ u u' t1 t2,
      delete_all t = (Return u, t1) → bulk_create [] t1 = (Return u', t2) →
      restore {| restore_file_handler := fh |} (Some d) t = (Return u', t2).
Proof.
  intros Hm Hne Hd Hdoc.
  assert (get_migrations_data_from_backup fh (Some d) = Return []) as Hg.
  { rewrite (get_migrations_data_latest _ _ _ _ Hm Hne Hd).
    by destruct Hdoc as [->|[->| ->]]. }
  split; [done|]. intros u u' t1 t2 Hdel Hins.
  unfold restore, atomic, restore_body. simpl. by rewrite Hg, Hdel, Hins.
Qed.

End Restoring.

(** A directory holding only a foreign file, and a table with one row. *)
Lemma X15_restore_without_backup_witness :
  let old : list (string * Naive.value) := [("id", PyInt 9); ("app", PyStr "old")] in
  let fh := handle "migrations" "backup.json" in
  let fs : backup_dir := Some {[ "notes.txt" := OtherFile ]} in
  restore_body fh fs [old] = (Raise FileNotFoundError, [old])
  ∧ restore {| restore_file_handler := fh |} fs [old] = (Raise FileNotFoundError, [old])
  ∧ load {| file_handler := fh |} fs [old] = (Raise FileNotFoundError, [old]).
Proof.
  intros old fh fs.
  apply (@X15_restore_without_backup Naive.datetime Naive.date Naive.lib SimpleTable.access fh fs [old]).
  intros d [= <-] k Hk Hend. rewrite dom_singleton_L in Hk.
  apply elem_of_singleton in Hk as ->. by vm_compute in Hend.
Defined.

(** A snapshot file holding an object instead of a list of objects. *)
Lemma X16_snapshot_not_a_list_witness :
  let old : list (string * Naive.value) := [("id", PyInt 9); ("app", PyStr "old")] in
  let fh := handle "migrations" "backup.json" in
  let d : gmap string entry :=
    {[ "0001_backup.json" := JsonFile (JObj [("id", JNum 1)]) ]} in
  restore_body fh (Some d) [old] = (Raise TypeError, [old])
  ∧ restore {| restore_file_handler := fh |} (Some d) [old] = (Raise TypeError, [old]).
Proof.
  intros old fh d.
  apply (@X16_snapshot_not_a_list Naive.datetime Naive.date Naive.lib SimpleTable.access fh d
           "0001_backup.json" (JObj [("id", JNum 1)]) [old]).
  - split; [|split; [done|]].
    + apply (bool_decide_unpack _); vm_compute; exact I.
    + intros k Hk _. unfold d in Hk. rewrite dom_singleton_L in Hk.
      by apply elem_of_singleton in Hk as ->.
  - done.
  - reflexivity.
  - do 4 right. by eexists _, _.
Defined.

(** A snapshot file holding an empty list, and a table with one row. *)
Lemma X17_empty_snapshot_witness :
  let old : list (string * Naive.value) := [("id", PyInt 9); ("app", PyStr "old")] in
  let fh := handle "migrations" "backup.json" in
  let d : gmap string entry := {[ "0001_backup.json" := JsonFile (JArr []) ]} in
  get_migrations_data_from_backup (TableAccess0 := SimpleTable.access) fh (Some d)
  = Return []
  ∧ ∀ u u' t1 t2,
      delete_all [old] = (Return u, t1) → bulk_create [] t1 = (Return u', t2) →
      restore {| restore_file_handler := fh |} (Some d) [old] = (Return u', t2).
Proof.
  intros old fh d.
  apply (@X17_empty_snapshot Naive.datetime Naive.date Naive.lib SimpleTable.access fh d
           "0001_backup.json" (JArr []) [old]).
  - split; [|split; [done|]].
    + apply (bool_decide_unpack _); vm_compute; exact I.
    + intros k Hk _. unfold d in Hk. rewrite dom_singleton_L in Hk.
      by apply elem_of_singleton in Hk as ->.
  - done.
  - reflexivity.
  - by left.
Defined.

(** ** Consecutive writes from any revision *)

Section Continue.
Context {datetime date : Type} `{!DatetimeLib datetime date}.
Local Abbreviation pyval := (@pyval datetime date) (only parsing).

(** X18: consecutive writes continue the numbering from wherever it
    stands. When revision [k] is the latest one (or there is none and [k]
    is 0) and the numbers stay within 9999, [N] writes create the
    revisions [k+1 .. k+N] in write order, each holding the document of
    its data, every entry that was in the directory is left as it was,
    and [read] afterwards returns what was written last. *)
Theorem X18_writes_continue_the_numbering (dn fn : string) (k : Z)
    (d : gmap string entry) (datas : list pyval) :
  numbered dn fn k d → 0 ≤ k → k + Z.of_nat (length datas) ≤ 9999 →
  ∃ d',
    write_all (handle dn fn) datas (Some d)
    = Return (revision fn <$> seqZ (k + 1) (Z.of_nat (length datas)), Some d')
    ∧ (∀ key, key ∈ dom d → d' !! key = d !! key)
    ∧ (∀ (i : nat) data, datas !! i = Some data →
         d' !! revision fn (k + 1 + Z.of_nat i)
         = Some (JsonFile (json_dump datetime_json_serialize data)))
    ∧ (∀ data, last datas = Some data →
         read (handle dn fn) (Some d') = Return (reread data)).
Proof.
  intros Hnum Hk Hlen.
  destruct (write_all_numbered dn fn datas k d Hnum Hk Hlen)
    as (d' & Hw & Hnum' & _ & Hold & Hnew).
  exists d'. split; [done|]. split; [done|]. split; [done|].
  intros data Hlast. rewrite last_lookup in Hlast.
  assert (0 < length datas)%nat as Hpos.
  { destruct datas; [done|simpl; lia]. }
  destruct Hnum' as [[Hz _]|[_ Hlatest]]; [lia|].
  rewrite (read_latest _ _ _ Hlatest (revision_ne_empty _ _)).
  pose proof (Hnew _ _ Hlast) as Hfile.
  replace (k + 1 + Z.of_nat (Nat.pred (length datas)))
    with (k + Z.of_nat (length datas)) in Hfile by lia.
  unfold read_file. by rewrite Hfile.
Qed.

End Continue.

(** Two writes to a directory whose latest revision is 0007. *)
Lemma X18_writes_continue_the_numbering_witness :
  let d : gmap string entry :=
    {[ "0007_x.json" := JsonFile JNull; "notes.txt" := OtherFile ]} in
  let datas : list Naive.value := [PyInt 1; PyInt 2] in
  ∃ d',
    write_all (handle "migrations" "x.json") datas (Some d)
    = Return (revision "x.json" <$> seqZ (7 + 1) (Z.of_nat (length datas)), Some d')
    ∧ (∀ key, key ∈ dom d → d' !! key = d !! key)
    ∧ (∀ (i : nat) data, datas !! i = Some data →
         d' !! revision "x.json" (7 + 1 + Z.of_nat i)
         = Some (JsonFile (json_dump datetime_json_serialize data)))
    ∧ (∀ data, last datas = Some data →
         read (handle "migrations" "x.json") (Some d') = Return (reread data)).
Proof.
  intros d datas.
  apply (X18_writes_continue_the_numbering "migrations" "x.json" 7 d datas).
  - right. split; [lia|]. split; [|split; [done|]].
    + apply (bool_decide_unpack _); vm_compute; exact I.
    + intros key Hkey Hend. unfold d in Hkey.
      rewrite dom_insert_L, dom_singleton_L in Hkey.
      apply elem_of_union in Hkey as [Hkey|Hkey];
        apply elem_of_singleton in Hkey as ->; [by vm_compute|].
      by vm_compute in Hend.
  - lia.
  - simpl. lia.
Defined.

(** ** Saving the table *)

Section Saving.
Context {datetime date : Type} `{!DatetimeLib datetime date}
  `{!TableAccess datetime date} `{!TableRead datetime date}.
Local Abbreviation pyval := (@pyval datetime date) (only parsing).

Lemma write_return_inv (self : BackupFile) (d : gmap string entry)
    (data : pyval) (fs' : backup_dir) :
  write self data (Some d) = Return fs' →
  ∃ path,
    new_file_path self (Some d) = Return path
    ∧ fs' = Some (<[path := JsonFile (json_dump datetime_json_serialize data)]> d).
Proof.
  unfold write. intros Hw.
  destruct (new_file_path self (Some d)) as [path|e]; [|done].
  simpl in Hw. unfold write_file in Hw. exists path. split; [done|].
  destruct (d !! path) as [[]|]; by inversion Hw.
Qed.

Lemma migration_record_NoDup (migration : row) :
  NoDup (meta_fields migration) →
  migration_record migration
  = (λ name, (name, default PyNone (getattr migration name)))
      <$> meta_fields migration.
Proof.
  intros Hnd. unfold migration_record. apply dict_of_pairs_NoDup.
  unfold keys. rewrite <- list_fmap_compose.
  by rewrite (list_fmap_ext _ id (meta_fields migration) (λ _ _ _, eq_refl)),
    list_fmap_id.
Qed.

(** X19: [save] writes one JSON object per row of the table, in the order
    of the table, with one member per field of the model, in declaration
    order, holding what the serialisation makes of the attribute of that
    name, and null for an attribute the row does not have; it changes no
    other entry of the directory. *)
Theorem X19_save_one_object_per_row (b : MigrationBackup)
    (d : gmap string entry) (t : table) (fs' : backup_dir) :
  save b (Some d) t = Return fs' →
  Forall (λ r, NoDup (meta_fields r)) (iterator t) →
  ∃ path,
    new_file_path (file_handler b) (Some d) = Return path
    ∧ fs'
      = Some (<[path :=
                  JsonFile
                    (JArr ((λ r,
                              JObj ((λ name,
                                       (name,
                                        json_dump datetime_json_serialize
                                          (default PyNone (getattr r name))))
                                      <$> meta_fields r))
                             <$> iterator t))]> d).
Proof.
  unfold save. intros Hs Hnd.
  destruct (write_return_inv _ _ _ _ Hs) as (path & Hp & ->).
  exists path. split; [done|].
  unfold get_migrations_data_from_db. simpl. rewrite map_map.
  do 4 f_equal. apply Forall_fmap_ext_1. eapply Forall_impl; [exact Hnd|].
  intros r Hr. simpl. f_equal. rewrite (migration_record_NoDup r Hr).
  rewrite map_map. done.
Qed.

(** X20: on a fresh installation, where the backup directory does not
    exist, constructing [MigrationBackup] and calling [save] succeeds and
    leaves the directory with one entry,
    [0001_backup_migrations_table.json], holding the document of the
    table. *)
Theorem X20_first_save_on_fresh_install (t : table) :
  save (MigrationBackup_init None).1 (MigrationBackup_init None).2 t
  = Return (Some {[ "0001_backup_migrations_table.json" :=
                      JsonFile (json_dump datetime_json_serialize
                                  (get_migrations_data_from_db t)) ]}).
Proof.
  unfold save, write. simpl.
  change (new_file_path _ (Some ∅))
    with (new_file_path (handle "migrations" BACKUP_FILE_NAME) (Some ∅)).
  assert (no_revision (handle "migrations" BACKUP_FILE_NAME) ∅) as Hno.
  { intros k Hk. by rewrite dom_empty_L in Hk. }
  unfold new_file_path. rewrite (next_revision_first _ _ Hno). simpl.
  by rewrite insert_empty.
Qed.

(** X21: [save] followed by [load] hands back the rows that were saved.
    On a store whose latest revision is canonical, when every field
    value of every row survives write and read (see [stable]) and the
    row constructor rebuilds each row from its fields, the rows
    [get_migrations_data_from_backup] builds from the saved snapshot are
    the rows of the table at the time of [save], in order, and [load] is
    the deletion of all rows followed by the bulk insert of these rows,
    as one transaction. *)
Theorem X21_save_then_load (fs0 : backup_dir) (d : gmap string entry)
    (t t2 : table) :
  let b := (MigrationBackup_init fs0).1 in
  store_ready (file_handler b) (Some d) →
  Forall (λ r, Forall (λ kv, stable true kv.2) (migration_record r)
               ∧ Migration (migration_record r) = Return r) (iterator t) →
  ∃ fs',
    save b (Some d) t = Return fs'
    ∧ get_migrations_data_from_backup (file_handler b) fs' = Return (iterator t)
    ∧ load b fs' t2
      = atomic (λ t2, match delete_all t2 with
                      | (Raise e, t3) => (Raise e, t3)
                      | (Return _, t3) => bulk_create (iterator t) t3
                      end) t2.
Proof.
  intros b Hr Hrows.
  change (file_handler b) with (handle "migrations" BACKUP_FILE_NAME) in *.
  set (recs := migration_record <$> iterator t).
  assert (get_migrations_data_from_db t = records recs) as Hdata.
  { unfold get_migrations_data_from_db, records, recs.
    by rewrite <- list_fmap_compose. }
  destruct (write_then_read "migrations" BACKUP_FILE_NAME d (records recs) Hr)
    as (path & _ & Hw & Hrd).
  assert (reread (records recs) = records recs) as Hsame.
  { apply stable_records_reread. unfold recs. apply Forall_fmap.
    eapply Forall_impl; [exact Hrows|]. intros r [Hs _].
    apply (proj2 (stable_dict (migration_record r) true)). split; [|done].
    unfold migration_record. apply dict_of_pairs_distinct. }
  rewrite Hsame in Hrd.
  eexists. split; [unfold save; rewrite Hdata; exact Hw|].
  assert (get_migrations_data_from_backup (handle "migrations" BACKUP_FILE_NAME)
            (Some (<[path := JsonFile (json_dump datetime_json_serialize
                                         (records recs))]> d))
          = Return (iterator t)) as Hg.
  { unfold get_migrations_data_from_backup. rewrite Hrd. simpl.
    apply for_each_append_return. exists (iterator t). split; [|done].
    unfold recs. rewrite <- list_fmap_compose.
    clear -Hrows. induction Hrows as [|r rows [_ Hrow] _ IH]; simpl.
    - constructor.
    - constructor; [exact Hrow|exact IH]. }
  split; [exact Hg|].
  unfold load, atomic, restore_body.
  change (file_handler b) with (handle "migrations" BACKUP_FILE_NAME).
  by rewrite Hg.
Qed.

End Saving.

(** A table of two rows, saved to an empty directory; the table the load
    runs on holds another row. *)
Lemma X21_save_then_load_witness :
  let row1 : list (string * Naive.value) :=
    [("id", PyInt 1); ("app", PyStr "auth"); ("name", PyStr "0001_initial");
     ("applied", PyDatetime (Naive.mk 2024 2 29 23 59 58 123456))] in
  let row2 : list (string * Naive.value) :=
    [("id", PyInt 2); ("app", PyStr "sites"); ("name", PyStr "0001_initial");
     ("applied", PyDatetime (Naive.mk 2024 3 1 0 0 0 0))] in
  let old : list (string * Naive.value) := [("id", PyInt 9); ("app", PyStr "old")] in
  let b := (MigrationBackup_init None).1 in
  ∃ fs',
    save b (Some ∅) [row1; row2] = Return fs'
    ∧ get_migrations_data_from_backup (file_handler b) fs' = Return [row1; row2]
    ∧ load b fs' [old]
      = atomic (λ t2, match delete_all t2 with
                      | (Raise e, t3) => (Raise e, t3)
                      | (Return _, t3) => bulk_create [row1; row2] t3
                      end) [old].
Proof.
  intros row1 row2 old.
  apply (@X21_save_then_load Naive.datetime Naive.date Naive.lib
           SimpleTable.access SimpleRows.reading None ∅ [row1; row2] [old]).
  - vm_compute. exact I.
  - assert (migration_record row1 = row1) as H1 by (vm_compute; reflexivity).
    assert (migration_record row2 = row2) as H2 by (vm_compute; reflexivity).
    apply Forall_cons; split; [split|apply Forall_cons; split; [split|by apply Forall_nil]].
    + rewrite H1.
      repeat (apply Forall_cons; split); [..|by apply Forall_nil];
        first [ exact I | vm_compute; reflexivity ].
    + vm_compute. reflexivity.
    + rewrite H2.
      repeat (apply Forall_cons; split); [..|by apply Forall_nil];
        first [ exact I | vm_compute; reflexivity ].
    + vm_compute. reflexivity.
Defined.

(** A table whose rows declare the four fields; the second row has no
    [applied] attribute. *)
Lemma X19_save_one_object_per_row_witness :
  let row1 : list (string * Naive.value) :=
    [("id", PyInt 1); ("app", PyStr "auth"); ("name", PyStr "0001_initial");
     ("applied", PyDatetime (Naive.mk 2024 2 29 23 59 58 0))] in
  let row2 : list (string * Naive.value) :=
    [("id", PyInt 2); ("app", PyStr "sites"); ("name", PyStr "0001_initial")] in
  let b := (MigrationBackup_init None).1 in
  let doc :=
    JArr [JObj [("id", JNum 1); ("app", JStr "auth"); ("name", JStr "0001_initial");
                ("applied", JStr "2024-02-29T23:59:58")];
          JObj [("id", JNum 2); ("app", JStr "sites"); ("name", JStr "0001_initial");
                ("applied", JNull)]] in
  ∃ path,
    new_file_path (file_handler b) (Some ∅) = Return path
    ∧ Some ({[ "0001_backup_migrations_table.json" := JsonFile doc ]}
            : gmap string entry)
      = Some (<[path := JsonFile doc]> ∅).
Proof.
  intros row1 row2 b doc.
  apply (@X19_save_one_object_per_row Naive.datetime Naive.date Naive.lib
           SimpleTable.access SimpleRows.reading b ∅ [row1; row2]
           (Some {[ "0001_backup_migrations_table.json" := JsonFile doc ]})).
  - vm_compute. reflexivity.
  - repeat (apply Forall_cons; split); [..|by apply Forall_nil];
      apply (bool_decide_unpack _); vm_compute; exact I.
Defined.
